(** * OpenHands prompt manager ([openhands/utils/prompt.py])

    A shallow embedding of [PromptManager] and of the message-composition
    methods it offers, followed by the properties of the prompt-assembly
    layer.

    Conventions of the embedding.
    - A Python [str] is a [string]; [int] is [Z]; a [list] is a [list];
      [None]-able values are [option]s.
    - A Python [dict] is insertion ordered, and the code iterates over
      [items()] and [values()]: it is an association list ([Dict.t]) whose
      [setitem] keeps the position of a key that is already present.
    - A method that raises returns a [result]; the constructors of
      [Exception] are the three exceptions the file raises by itself and
      the two kinds its collaborators raise while a template is loaded.
    - A method that only reads or assigns attributes of [self] is written in
      the [Method] monad, whose state is the manager.  A method that mutates
      its message argument in place reads the manager and returns the new
      value of that message.
    - The template engine (jinja2), the file system and the microagent
      loader are collaborators: they are the [Variable]s of the sections. *)

From Stdlib Require Import List String Ascii ZArith Lia Bool Arith DecimalString.
Import ListNotations.
Local Open Scope string_scope.
Local Open Scope list_scope.

Set Implicit Arguments.

(** String concatenation, Python's [+] on [str]. *)
Infix "+++" := String.append (right associativity, at level 60).

(* ------------------------------------------------------------------ *)
(** ** Python built-ins used by the file *)

Module Py.

(** The newline character and ["\n"]. *)
Definition nl_char : ascii := ascii_of_nat 10.
Definition nl : string := String nl_char EmptyString.

(** Truthiness of a [str]: the empty string is falsy. *)
Definition truthy (s : string) : bool :=
  match s with
  | EmptyString => false
  | String _ _ => true
  end.

(** Truthiness of a [list]. *)
Definition truthy_list {A : Type} (l : list A) : bool :=
  match l with
  | [] => false
  | _ :: _ => true
  end.

(** Truthiness of [str | None]. *)
Definition truthy_opt (o : option string) : bool :=
  match o with
  | None => false
  | Some s => truthy s
  end.

(** [str.isspace] on one character.  A character is a code point below
    256 here; the whitespace among these is: tab, line feed, vertical tab,
    form feed, carriage return (9..13), the four separators 28..31, the
    space (32), the next-line character U+0085 (133) and the no-break space
    U+00A0 (160). *)
Definition isspace (c : ascii) : bool :=
  let n := nat_of_ascii c in
  (((9 <=? n) && (n <=? 13)) || ((28 <=? n) && (n <=? 32))
   || (n =? 133) || (n =? 160))%nat.

(** The next-line character and the no-break space. *)
Definition nel_char : ascii := ascii_of_nat 133.
Definition nbsp_char : ascii := ascii_of_nat 160.

Fixpoint lstrip_chars (l : list ascii) : list ascii :=
  match l with
  | [] => []
  | c :: l' => if isspace c then lstrip_chars l' else l
  end.

Definition lstrip (s : string) : string :=
  string_of_list_ascii (lstrip_chars (list_ascii_of_string s)).

Definition rstrip (s : string) : string :=
  string_of_list_ascii (rev (lstrip_chars (rev (list_ascii_of_string s)))).

(** [s.strip()] with no argument. *)
Definition strip (s : string) : string := lstrip (rstrip s).

(** [str(n)] for an [int], as an f-string formats it. *)
Definition str_of_int (n : Z) : string :=
  NilEmpty.string_of_int (Z.to_int n).

(** [s.startswith(c)] and [s.endswith(c)] for a one-character [c]. *)
Definition startswith_char (s : string) (c : ascii) : bool :=
  match s with
  | String c' _ => Ascii.eqb c' c
  | EmptyString => false
  end.

Fixpoint endswith_char (s : string) (c : ascii) : bool :=
  match s with
  | EmptyString => false
  | String c' EmptyString => Ascii.eqb c' c
  | String _ s' => endswith_char s' c
  end.

(** [os.path.join(a, b)] of [posixpath], for two components. *)
Definition path_join (a b : string) : string :=
  if startswith_char b "/" then b
  else if negb (truthy a) || endswith_char a "/" then a +++ b
  else a +++ "/" +++ b.

(** [enumerate], [reversed], [islice(it, stop)], [next(it, default)] and
    [any]; a generator that is consumed once is the list of what it yields. *)
Definition enumerate_from {A : Type} (start : nat) (l : list A) : list (nat * A) :=
  combine (seq start (List.length l)) l.

Definition enumerate {A : Type} (l : list A) : list (nat * A) :=
  enumerate_from 0 l.

Definition reversed {A : Type} (l : list A) : list A := rev l.

Definition islice {A : Type} (it : list A) (stop : nat) : list A := firstn stop it.

Definition next {A : Type} (it : list A) (default : option A) : option A :=
  match it with
  | x :: _ => Some x
  | [] => default
  end.

Definition any {A : Type} (p : A -> bool) (l : list A) : bool := existsb p l.

(** [l.insert(i, x)] for [i >= 0] (an index past the end appends) and
    [l.append(x)]. *)
Definition insert {A : Type} (i : nat) (x : A) (l : list A) : list A :=
  firstn i l ++ x :: skipn i l.

Definition append {A : Type} (l : list A) (x : A) : list A := l ++ [x].

(** [x in l] for a list of strings. *)
Definition contains (x : string) (l : list string) : bool :=
  existsb (String.eqb x) l.

End Py.

(* ------------------------------------------------------------------ *)
(** ** Insertion-ordered dictionaries with string keys *)

Module Dict.

Definition t (V : Type) : Type := list (string * V).

Definition empty {V : Type} : t V := [].

(** [d[k] = v]: a present key keeps its place and takes the new value, a
    new key goes last. *)
Fixpoint setitem {V : Type} (d : t V) (k : string) (v : V) : t V :=
  match d with
  | [] => [(k, v)]
  | (k', v') :: d' =>
      if String.eqb k' k then (k', v) :: d' else (k', v') :: setitem d' k v
  end.

(** [d.get(k)]: the value under [k], [None] when the key is absent. *)
Fixpoint get {V : Type} (d : t V) (k : string) : option V :=
  match d with
  | [] => None
  | (k', v) :: d' => if String.eqb k' k then Some v else get d' k
  end.

Definition items {V : Type} (d : t V) : list (string * V) := d.
Definition keys {V : Type} (d : t V) : list string := map fst d.
Definition values {V : Type} (d : t V) : list V := map snd d.
Definition len {V : Type} (d : t V) : nat := List.length d.

End Dict.

(* ------------------------------------------------------------------ *)
(** ** Exceptions and results *)

(** [AssertionError] stands for a failed [assert]; its message is not
    modelled.  [OSError] is what [open] and [read] raise on a path that
    exists (a directory, a file that may not be read), and
    [TemplateSyntaxError] what the template engine raises on a text that
    does not compile. *)
Inductive Exception : Type :=
| ValueError (msg : string)
| FileNotFoundError (msg : string)
| AssertionError
| OSError (msg : string)
| TemplateSyntaxError (msg : string).

Inductive result (A : Type) : Type :=
| Ok (a : A)
| Raise (e : Exception).

Arguments Ok {A} a.
Arguments Raise {A} e.

Definition rbind {A B : Type} (r : result A) (k : A -> result B) : result B :=
  match r with
  | Ok a => k a
  | Raise e => Raise e
  end.

Declare Scope result_scope.
Delimit Scope result_scope with result.
Notation "x <- r ;; k" := (rbind r (fun x => k))
  (at level 100, r at next level, right associativity) : result_scope.

(** [assert c]. *)
Definition assert (c : bool) : result unit :=
  if c then Ok tt else Raise AssertionError.

(* ------------------------------------------------------------------ *)
(** ** Data model *)

(** A content block of a message. *)
Inductive Content : Type :=
| TextContent (text : string)
| ImageContent (image_urls : list string).

(** [isinstance(c, TextContent)]. *)
Definition is_TextContent (c : Content) : bool :=
  match c with
  | TextContent _ => true
  | ImageContent _ => false
  end.

Record Message : Type := mkMessage {
  role : string;
  content : list Content
}.

(** The two counters of the conversation state that the file reads. *)
Record State : Type := mkState {
  max_iterations : Z;
  iteration : Z
}.

Record RuntimeInfo : Type := mkRuntimeInfo {
  available_hosts : Dict.t Z
}.

Record RepositoryInfo : Type := mkRepositoryInfo {
  repo_name : option string;
  repo_directory : option string
}.

(** Microagents.  [KnowledgeMicroAgent] and [RepoMicroAgent] extend
    [BaseMicroAgent]; the trigger matcher of a knowledge microagent is the
    method the object carries: given a text it returns the matched trigger
    keyword or [None]. *)
Module MicroAgent.

Record BaseMicroAgent : Type := mkBase {
  name : string;
  content : string
}.

Record KnowledgeMicroAgent : Type := mkKnowledge {
  knowledge_base :> BaseMicroAgent;
  match_trigger : string -> option string
}.

Record RepoMicroAgent : Type := mkRepo {
  repo_base :> BaseMicroAgent
}.

(** A value of static type [BaseMicroAgent], with its dynamic class. *)
Inductive t : Type :=
| Knowledge (a : KnowledgeMicroAgent)
| Repo (a : RepoMicroAgent)
| Other (a : BaseMicroAgent).

Definition base (m : t) : BaseMicroAgent :=
  match m with
  | Knowledge a => a
  | Repo a => a
  | Other a => a
  end.

(** [isinstance(m, KnowledgeMicroAgent)] and [isinstance(m, RepoMicroAgent)],
    with the downcast. *)
Definition as_knowledge (m : t) : option KnowledgeMicroAgent :=
  match m with
  | Knowledge a => Some a
  | _ => None
  end.

Definition as_repo (m : t) : option RepoMicroAgent :=
  match m with
  | Repo a => Some a
  | _ => None
  end.

End MicroAgent.

Import MicroAgent(BaseMicroAgent, KnowledgeMicroAgent, RepoMicroAgent).
Import (coercions) MicroAgent.

(** One entry of [triggered_agents]: the dictionary
    [{'agent': microagent, 'trigger_word': trigger}]. *)
Record TriggeredAgent : Type := mkTriggered {
  agent : KnowledgeMicroAgent;
  trigger_word : string
}.

(** A compiled template: [Template(source)]. *)
Record Template : Type := mkTemplate {
  source : string
}.

(** The values the file passes to [render] as named variables. *)
Inductive Value : Type :=
| VStr (s : string)
| VRepositoryInfo (r : option RepositoryInfo)
| VRuntimeInfo (r : RuntimeInfo)
| VTriggeredAgents (l : list TriggeredAgent).

Definition Context : Type := list (string * Value).

Record PromptManager : Type := mkPromptManager {
  disabled_microagents : list string;
  prompt_dir : option string;
  repository_info : option RepositoryInfo;
  system_template : Template;
  user_template : Template;
  additional_info_template : Template;
  microagent_info_template : Template;
  runtime_info : RuntimeInfo;
  knowledge_microagents : Dict.t KnowledgeMicroAgent;
  repo_microagents : Dict.t RepoMicroAgent
}.

(* ------------------------------------------------------------------ *)
(** ** The methods of [PromptManager] *)

(** Methods over [self]: the state is the manager. *)
Definition Method (A : Type) : Type := PromptManager -> A * PromptManager.

Definition mret {A : Type} (a : A) : Method A := fun self => (a, self).

Definition mbind {A B : Type} (m : Method A) (k : A -> Method B) : Method B :=
  fun self => let (a, self') := m self in k a self'.

(** Reading an expression over [self], and assigning attributes of [self]. *)
Definition reads {A : Type} (f : PromptManager -> A) : Method A :=
  fun self => (f self, self).

Definition assigns (f : PromptManager -> PromptManager) : Method unit :=
  fun self => (tt, f self).

Definition eval {A : Type} (m : Method A) (self : PromptManager) : A := fst (m self).
Definition exec {A : Type} (m : Method A) (self : PromptManager) : PromptManager :=
  snd (m self).

Declare Scope method_scope.
Delimit Scope method_scope with method.
Notation "x <- m ;; k" := (mbind m (fun x => k))
  (at level 100, m at next level, right associativity) : method_scope.
Notation "m1 ;;; m2" := (mbind m1 (fun _ => m2))
  (at level 100, right associativity) : method_scope.

(** [for x in l: body x]. *)
Fixpoint for_each {A : Type} (l : list A) (body : A -> Method unit) : Method unit :=
  match l with
  | [] => mret tt
  | x :: l' => (body x ;;; for_each l' body)%method
  end.

(** The attribute assignments the methods make. *)
Definition set_knowledge_microagents (d : Dict.t KnowledgeMicroAgent)
    (self : PromptManager) : PromptManager :=
  mkPromptManager (disabled_microagents self) (prompt_dir self)
    (repository_info self) (system_template self) (user_template self)
    (additional_info_template self) (microagent_info_template self)
    (runtime_info self) d (repo_microagents self).

Definition set_repo_microagents (d : Dict.t RepoMicroAgent)
    (self : PromptManager) : PromptManager :=
  mkPromptManager (disabled_microagents self) (prompt_dir self)
    (repository_info self) (system_template self) (user_template self)
    (additional_info_template self) (microagent_info_template self)
    (runtime_info self) (knowledge_microagents self) d.

Definition set_runtime_info_attr (r : RuntimeInfo)
    (self : PromptManager) : PromptManager :=
  mkPromptManager (disabled_microagents self) (prompt_dir self)
    (repository_info self) (system_template self) (user_template self)
    (additional_info_template self) (microagent_info_template self)
    r (knowledge_microagents self) (repo_microagents self).

Definition set_repository_info_attr (r : option RepositoryInfo)
    (self : PromptManager) : PromptManager :=
  mkPromptManager (disabled_microagents self) (prompt_dir self)
    r (system_template self) (user_template self)
    (additional_info_template self) (microagent_info_template self)
    (runtime_info self) (knowledge_microagents self) (repo_microagents self).

(** The names of the four template files, in loading order. *)
Definition template_names : list string :=
  ["system_prompt"; "user_prompt"; "additional_info"; "microagent_info"].

(** The reminder of [add_turns_left_reminder], an f-string over the state. *)
Definition reminder_text (state : State) : string :=
  Py.nl +++ Py.nl +++ "ENVIRONMENT REMINDER: You have "
  +++ Py.str_of_int (max_iterations state - iteration state)
  +++ " turns left to complete the task. When finished reply with <finish></finish>.".

(** The message object at position [i] of the list takes a new value. *)
Fixpoint replace_at {A : Type} (i : nat) (x : A) (l : list A) : list A :=
  match l, i with
  | [], _ => []
  | _ :: l', O => x :: l'
  | y :: l', S i' => y :: replace_at i' x l'
  end.

(** The filter of the generator in [add_turns_left_reminder]. *)
Definition is_user_text_message (m : Message) : bool :=
  String.eqb (role m) "user" && Py.any is_TextContent (content m).

(** [add_turns_left_reminder(messages, state)].  The messages of the list
    are taken to be distinct objects; each is paired with its position,
    which stands for its identity, and the mutation of the chosen object is
    the new value at that position.  A [Message] object is always truthy. *)
Definition add_turns_left_reminder (messages : list Message) (state : State)
    : list Message :=
  let latest_user_message :=
    Py.next
      (Py.islice
         (filter (fun im => is_user_text_message (snd im))
            (Py.reversed (Py.enumerate messages)))
         1)
      None in
  match latest_user_message with
  | Some (i, m) =>
      replace_at i
        (mkMessage (role m)
           (Py.append (content m) (TextContent (reminder_text state))))
        messages
  | None => messages
  end.

(** The loop of [enhance_message] over [reversed(message.content)]: the
    text of the first text block met, [''] when there is none. *)
Fixpoint first_text (l : list Content) : string :=
  match l with
  | [] => ""
  | TextContent text :: _ => text
  | ImageContent _ :: l' => first_text l'
  end.

Definition last_text (l : list Content) : string :=
  first_text (Py.reversed l).

(** The loop of [enhance_message] over [knowledge_microagents.items()]. *)
Definition collect_triggered (message_content : string)
    (items : list (string * KnowledgeMicroAgent)) : list TriggeredAgent :=
  fold_left
    (fun triggered_agents item =>
       let microagent := snd item in
       match MicroAgent.match_trigger microagent message_content with
       | Some trigger =>
           if Py.truthy trigger
           then Py.append triggered_agents (mkTriggered microagent trigger)
           else triggered_agents
       | None => triggered_agents
       end)
    items [].

(** The loop of [add_info_to_initial_message] over
    [repo_microagents.values()]. *)
Definition join_repo_instructions (agents : list RepoMicroAgent) : string :=
  fold_left
    (fun repo_instructions (microagent : RepoMicroAgent) =>
       (if Py.truthy repo_instructions
        then repo_instructions +++ Py.nl +++ Py.nl
        else repo_instructions)
       +++ MicroAgent.content microagent)
    agents "".

(** One step of the registration loops of [__init__]. *)
Definition register_enabled {V : Type} (disabled : list string)
    (loaded : Dict.t V) (registry : Dict.t V) : Dict.t V :=
  fold_left
    (fun reg item =>
       if negb (Py.contains (fst item) disabled)
       then Dict.setitem reg (fst item) (snd item)
       else reg)
    (Dict.items loaded) registry.

(** [assert all(isinstance(m, C) for m in d.values())], giving the
    dictionary at the class [C]. *)
Fixpoint downcast_all {V W : Type} (cast : V -> option W) (d : Dict.t V)
    : option (Dict.t W) :=
  match d with
  | [] => Some []
  | (k, v) :: d' =>
      match cast v, downcast_all cast d' with
      | Some w, Some d'' => Some ((k, w) :: d'')
      | _, _ => None
      end
  end.

Definition assert_all_isinstance {V W : Type} (cast : V -> option W)
    (d : Dict.t V) : result (Dict.t W) :=
  match downcast_all cast d with
  | Some d' => Ok d'
  | None => Raise AssertionError
  end.

Section Manager.

(** The collaborators.  [render t ctx] is the template engine's
    [t.render] called with the named variables [ctx].  [read_file p] is
    [None] when [os.path.exists(p)] is false, and otherwise what opening
    and reading the file at path [p] gives: its text, or the exception
    raised.  [template_error text] is the exception the template engine
    raises when it compiles [text], [None] when [text] compiles.
    [load_microagents_from_dir] is the microagent loader, which gives the
    repo, the knowledge and the remaining microagents of a directory by
    name. *)
Variable render : Template -> Context -> string.
Variable read_file : string -> option (result string).
Variable template_error : string -> option Exception.
Variable load_microagents_from_dir :
  string -> Dict.t MicroAgent.t * Dict.t MicroAgent.t * Dict.t MicroAgent.t.

(** [Template(text)]. *)
Definition compile_template (text : string) : result Template :=
  match template_error text with
  | Some e => Raise e
  | None => Ok (mkTemplate text)
  end.

Definition _load_template (prompt_dir : option string) (template_name : string)
    : result Template :=
  match prompt_dir with
  | None => Raise (ValueError "Prompt directory is not set")
  | Some dir =>
      let template_path := Py.path_join dir (template_name +++ ".j2") in
      match read_file template_path with
      | None =>
          Raise (FileNotFoundError
                   ("Prompt file " +++ template_path +++ " not found"))
      | Some file_read =>
          (text <- file_read ;; compile_template text)%result
      end
  end.

(** [PromptManager(prompt_dir, microagent_dir, disabled_microagents)]. *)
Definition __init__ (prompt_dir : option string) (microagent_dir : option string)
    (disabled : option (list string)) : result PromptManager :=
  (let disabled_microagents :=
     match disabled with
     | Some l => l
     | None => []
     end in
   system_template <- _load_template prompt_dir "system_prompt" ;;
   user_template <- _load_template prompt_dir "user_prompt" ;;
   additional_info_template <- _load_template prompt_dir "additional_info" ;;
   microagent_info_template <- _load_template prompt_dir "microagent_info" ;;
   let self :=
     mkPromptManager disabled_microagents prompt_dir None
       system_template user_template additional_info_template
       microagent_info_template (mkRuntimeInfo Dict.empty)
       Dict.empty Dict.empty in
   match microagent_dir with
   | Some dir =>
       if Py.truthy dir then
         let '(loaded_repo, loaded_knowledge, _) :=
           load_microagents_from_dir dir in
         knowledge <- assert_all_isinstance MicroAgent.as_knowledge
                        loaded_knowledge ;;
         let self :=
           set_knowledge_microagents
             (register_enabled disabled_microagents knowledge
                (knowledge_microagents self)) self in
         repo <- assert_all_isinstance MicroAgent.as_repo loaded_repo ;;
         Ok (set_repo_microagents
               (register_enabled disabled_microagents repo
                  (repo_microagents self)) self)
       else Ok self
   | None => Ok self
   end)%result.

(** The body of the loop of [load_microagents]. *)
Definition load_microagent (microagent : MicroAgent.t) : Method unit :=
  fun self =>
    if Py.contains (MicroAgent.name (MicroAgent.base microagent))
         (disabled_microagents self)
    then (tt, self)
    else
      match microagent with
      | MicroAgent.Knowledge a =>
          (tt, set_knowledge_microagents
                 (Dict.setitem (knowledge_microagents self)
                    (MicroAgent.name a) a) self)
      | MicroAgent.Repo a =>
          (tt, set_repo_microagents
                 (Dict.setitem (repo_microagents self)
                    (MicroAgent.name a) a) self)
      | MicroAgent.Other _ => (tt, self)
      end.

Definition load_microagents (microagents : list MicroAgent.t) : Method unit :=
  for_each microagents load_microagent.

Definition get_system_message : Method string :=
  reads (fun self => Py.strip (render (system_template self) [])).

Definition set_runtime_info (web_hosts : Dict.t Z) : Method unit :=
  assigns (set_runtime_info_attr (mkRuntimeInfo web_hosts)).

Definition set_repository_info (repo_name repo_directory : string) : Method unit :=
  assigns (set_repository_info_attr
             (Some (mkRepositoryInfo (Some repo_name) (Some repo_directory)))).

Definition get_example_user_message : Method string :=
  reads (fun self => Py.strip (render (user_template self) [])).

Definition build_microagent_info (self : PromptManager)
    (triggered_agents : list TriggeredAgent) : string :=
  Py.strip
    (render (microagent_info_template self)
       [("triggered_agents", VTriggeredAgents triggered_agents)]).

(** [enhance_message(message)]: the new value of [message]. *)
Definition enhance_message (self : PromptManager) (message : Message) : Message :=
  if negb (Py.truthy_list (content message)) then message
  else
    let message_content := last_text (content message) in
    if negb (Py.truthy message_content) then message
    else
      let triggered_agents :=
        collect_triggered message_content
          (Dict.items (knowledge_microagents self)) in
      if Py.truthy_list triggered_agents then
        let formatted_text := build_microagent_info self triggered_agents in
        mkMessage (role message)
          (Py.insert 0 (TextContent formatted_text) (content message))
      else message.

(** [add_examples_to_initial_message(message)]: the new value of [message]. *)
Definition add_examples_to_initial_message (self : PromptManager)
    (message : Message) : Message :=
  let example_message := eval get_example_user_message self in
  if Py.truthy example_message
  then mkMessage (role message)
         (Py.insert 0 (TextContent example_message) (content message))
  else message.

(** [add_info_to_initial_message(message)]: the new value of [message], or
    the assertion fault. *)
Definition add_info_to_initial_message (self : PromptManager)
    (message : Message) : result Message :=
  (_ <- assert (Dict.len (repo_microagents self) <=? 1)%nat ;;
   let repo_instructions :=
     join_repo_instructions (Dict.values (repo_microagents self)) in
   let additional_info :=
     Py.strip
       (render (additional_info_template self)
          [("repository_instructions", VStr repo_instructions);
           ("repository_info", VRepositoryInfo (repository_info self));
           ("runtime_info", VRuntimeInfo (runtime_info self))]) in
   if Py.truthy additional_info
   then Ok (mkMessage (role message)
              (Py.insert 0 (TextContent additional_info) (content message)))
   else Ok message)%result.

(** The three calls that compose the initial user message, and a sequence
    of them on one message object. *)
Inductive Call : Type :=
| CallEnhance
| CallAddExamples
| CallAddInfo.

Definition call (self : PromptManager) (c : Call) (message : Message)
    : result Message :=
  match c with
  | CallEnhance => Ok (enhance_message self message)
  | CallAddExamples => Ok (add_examples_to_initial_message self message)
  | CallAddInfo => add_info_to_initial_message self message
  end.

Fixpoint run_calls (self : PromptManager) (calls : list Call) (message : Message)
    : result Message :=
  match calls with
  | [] => Ok message
  | c :: calls' =>
      (message' <- call self c message ;; run_calls self calls' message')%result
  end.

(** A run of calls on one message object, with the blocks the calls
    inserted, in call order: a call either leaves the message as it is or
    inserts one text block at index 0 of its content. *)
Inductive CallTrace (self : PromptManager)
    : Message -> list Call -> list Content -> Message -> Prop :=
| trace_done (m : Message) : CallTrace self m [] [] m
| trace_unchanged (m : Message) (c : Call) (calls : list Call)
    (blocks : list Content) (m' : Message) :
    call self c m = Ok m ->
    CallTrace self m calls blocks m' ->
    CallTrace self m (c :: calls) blocks m'
| trace_insert (m : Message) (c : Call) (text : string) (calls : list Call)
    (blocks : list Content) (m' : Message) :
    call self c m =
      Ok (mkMessage (role m) (Py.insert 0 (TextContent text) (content m))) ->
    CallTrace self
      (mkMessage (role m) (Py.insert 0 (TextContent text) (content m)))
      calls blocks m' ->
    CallTrace self m (c :: calls) (TextContent text :: blocks) m'.

End Manager.

(* ------------------------------------------------------------------ *)
(** ** Definitions used by the statements *)

(** What stops the loading of the template file at [path], if anything:
    the file is missing, it cannot be read, or its text does not compile. *)
Definition template_load_error (read_file : string -> option (result string))
    (template_error : string -> option Exception) (path : string)
    : option Exception :=
  match read_file path with
  | None => Some (FileNotFoundError ("Prompt file " +++ path +++ " not found"))
  | Some (Raise e) => Some e
  | Some (Ok text) => template_error text
  end.

(** The path of a template file in the prompt directory. *)
Definition template_path (dir name : string) : string :=
  Py.path_join dir (name +++ ".j2").

(** What one registry entry contributes to [triggered_agents]: its match
    when the matcher returns a truthy keyword, nothing otherwise. *)
Definition matches_of (message_content : string)
    (item : string * KnowledgeMicroAgent) : list TriggeredAgent :=
  match MicroAgent.match_trigger (snd item) message_content with
  | Some trigger =>
      if Py.truthy trigger then [mkTriggered (snd item) trigger] else []
  | None => []
  end.

(** No name of the disable-list is a key of either registry. *)
Definition no_disabled_registered (self : PromptManager) : Prop :=
  forall n,
    In n (disabled_microagents self) ->
    ~ In n (Dict.keys (knowledge_microagents self)) /\
    ~ In n (Dict.keys (repo_microagents self)).

(** [isinstance] of neither registered class. *)
Definition is_other (m : MicroAgent.t) : bool :=
  match m with
  | MicroAgent.Other _ => true
  | _ => false
  end.

(** The entries of a batch that [load_microagents] registers: those whose
    name is not disabled and whose class is one of the two registered. *)
Definition takes_effect (disabled : list string) (m : MicroAgent.t) : bool :=
  negb (Py.contains (MicroAgent.name (MicroAgent.base m)) disabled)
  && negb (is_other m).

(** The methods that assign attributes of the manager after its
    construction, and the manager after a series of such calls. *)
Inductive MutatingCall : Type :=
| LoadMicroagents (microagents : list MicroAgent.t)
| SetRuntimeInfo (web_hosts : Dict.t Z)
| SetRepositoryInfo (repo_name repo_directory : string).

Definition mutate (c : MutatingCall) : Method unit :=
  match c with
  | LoadMicroagents microagents => load_microagents microagents
  | SetRuntimeInfo web_hosts => set_runtime_info web_hosts
  | SetRepositoryInfo repo_name repo_directory =>
      set_repository_info repo_name repo_directory
  end.

Definition after_calls (self : PromptManager) (calls : list MutatingCall)
    : PromptManager :=
  fold_left (fun s c => exec (mutate c) s) calls self.

(** The disable-list a constructor call sets: [disabled_microagents or []]. *)
Definition disabled_or_empty (disabled : option (list string)) : list string :=
  match disabled with
  | Some l => l
  | None => []
  end.

(* ------------------------------------------------------------------ *)
(** ** Example data *)

Definition user_message (text : string) : Message :=
  mkMessage "user" [TextContent text].

Definition assistant_message (text : string) : Message :=
  mkMessage "assistant" [TextContent text].

(** [[user("a"), assistant("b"), user("c")]] with [max_iterations=10],
    [iteration=3]. *)
Definition example_messages : list Message :=
  [user_message "a"; assistant_message "b"; user_message "c"].

Definition example_state : State := mkState 10 3.

Definition seven_turns_reminder : string :=
  Py.nl +++ Py.nl +++
  "ENVIRONMENT REMINDER: You have 7 turns left to complete the task. When finished reply with <finish></finish>.".

(** The scan as the specification words it, for comparison with the code:
    the single most recent message is skipped, and the reminder goes to
    the latest user message with a text block among the earlier ones. *)
Definition skip_one_add_turns_left_reminder (messages : list Message)
    (state : State) : list Message :=
  match rev messages with
  | [] => messages
  | latest :: earlier =>
      add_turns_left_reminder (rev earlier) state ++ [latest]
  end.

(** The outcome the skip-one scan gives on the example: the reminder on
    the first user message. *)
Definition reminder_on_first_user_message : list Message :=
  [mkMessage "user" [TextContent "a"; TextContent seven_turns_reminder];
   assistant_message "b";
   user_message "c"].

(** The message [m] with the reminder appended to its content. *)
Definition with_reminder (state : State) (m : Message) : Message :=
  mkMessage (role m) (content m ++ [TextContent (reminder_text state)]).

(* ------------------------------------------------------------------ *)
(** ** A concrete manager *)

(** A matcher for one keyword: the keyword when the text contains it. *)
Definition keyword_matcher (keyword : string) (text : string) : option string :=
  match String.index 0 keyword text with
  | Some _ => Some keyword
  | None => None
  end.

Definition git_agent : KnowledgeMicroAgent :=
  MicroAgent.mkKnowledge (MicroAgent.mkBase "git" "Use git with care.")
    (keyword_matcher "git").

Definition docker_agent : KnowledgeMicroAgent :=
  MicroAgent.mkKnowledge (MicroAgent.mkBase "docker" "Docker is installed.")
    (keyword_matcher "docker").

Definition repo_agent : RepoMicroAgent :=
  MicroAgent.mkRepo (MicroAgent.mkBase "repo" "Run the tests before a commit.").

Definition second_repo_agent : RepoMicroAgent :=
  MicroAgent.mkRepo (MicroAgent.mkBase "second" "Format the code.").

Definition task_agent : BaseMicroAgent :=
  MicroAgent.mkBase "task" "A task microagent.".

(** A renderer that writes the template text followed by the variables:
    strings as they are, the triggered agents by their trigger words. *)
Definition show_value (v : Value) : string :=
  match v with
  | VStr s => s
  | VRepositoryInfo _ => ""
  | VRuntimeInfo _ => ""
  | VTriggeredAgents l => String.concat "," (map trigger_word l)
  end.

Definition demo_render (t : Template) (ctx : Context) : string :=
  source t +++ String.concat "" (map (fun kv => show_value (snd kv)) ctx).

(** The text of [system_prompt.j2]: it begins with a no-break space and
    ends with a next-line character. *)
Definition system_prompt_text : string :=
  String Py.nbsp_char (" You are an agent. " +++ String Py.nel_char "").

(** A prompt directory with the four templates. *)
Definition demo_files (path : string) : option (result string) :=
  if String.eqb path "/prompts/system_prompt.j2"
  then Some (Ok system_prompt_text)
  else if String.eqb path "/prompts/user_prompt.j2" then Some (Ok "Example: ")
  else if String.eqb path "/prompts/additional_info.j2" then Some (Ok "Info: ")
  else if String.eqb path "/prompts/microagent_info.j2"
  then Some (Ok "Triggered: ")
  else None.

(** A prompt directory where [user_prompt.j2] is missing. *)
Definition incomplete_files (path : string) : option (result string) :=
  if String.eqb path "/prompts/user_prompt.j2" then None else demo_files path.

(** A prompt directory where [system_prompt.j2] does not compile and
    [user_prompt.j2] is missing. *)
Definition malformed_files (path : string) : option (result string) :=
  if String.eqb path "/prompts/system_prompt.j2"
  then Some (Ok "Hello {% if %}")
  else incomplete_files path.

(** A template engine that refuses an [if] tag without a condition. *)
Definition demo_template_error (text : string) : option Exception :=
  match String.index 0 "{% if %}" text with
  | Some _ => Some (TemplateSyntaxError "Expected an expression")
  | None => None
  end.

(** A loader that finds one repo and two knowledge microagents. *)
Definition demo_loader (dir : string)
    : Dict.t MicroAgent.t * Dict.t MicroAgent.t * Dict.t MicroAgent.t :=
  ([("repo", MicroAgent.Repo repo_agent)],
   [("git", MicroAgent.Knowledge git_agent);
    ("docker", MicroAgent.Knowledge docker_agent)],
   []).

(** The manager [PromptManager("/prompts", "/microagents", ["docker"])]. *)
Definition demo_manager : PromptManager :=
  mkPromptManager ["docker"] (Some "/prompts") None
    (mkTemplate system_prompt_text) (mkTemplate "Example: ")
    (mkTemplate "Info: ") (mkTemplate "Triggered: ")
    (mkRuntimeInfo Dict.empty)
    [("git", git_agent)] [("repo", repo_agent)].

(** A manager with both knowledge microagents and no repo microagent. *)
Definition two_knowledge_manager : PromptManager :=
  set_repo_microagents Dict.empty
    (set_knowledge_microagents [("git", git_agent); ("docker", docker_agent)]
       demo_manager).

(** A manager with two repo microagents. *)
Definition two_repo_manager : PromptManager :=
  set_repo_microagents [("repo", repo_agent); ("second", second_repo_agent)]
    demo_manager.

(** A message with two text blocks between images: the earlier names
    [docker], the last names [git]. *)
Definition message_with_two_text_blocks : Message :=
  mkMessage "user"
    [TextContent "use docker only";
     ImageContent ["https://example.com/a.png"];
     TextContent "use git";
     ImageContent ["https://example.com/b.png"]].

(** The message ["use git"] followed by an empty text block. *)
Definition message_with_empty_last_text : Message :=
  mkMessage "user" [TextContent "use git"; TextContent ""].

(** A batch that names a disabled microagent, an entity of neither class
    and a second repo microagent. *)
Definition demo_batch : list MicroAgent.t :=
  [MicroAgent.Knowledge docker_agent;
   MicroAgent.Other task_agent;
   MicroAgent.Repo second_repo_agent].

(** The calls made on the concrete manager after its construction. *)
Definition demo_calls : list MutatingCall :=
  [SetRepositoryInfo "owner/repo" "/workspace/repo";
   LoadMicroagents demo_batch;
   SetRuntimeInfo [("localhost", 8080%Z)]].

(* ------------------------------------------------------------------ *)
(** ** Definitions used by the further properties *)

(** [any(isinstance(c, TextContent) for c in content)]. *)
Definition has_text (l : list Content) : bool := Py.any is_TextContent l.

(** Every character of the string is whitespace (so is the empty string). *)
Definition all_space (s : string) : bool :=
  forallb Py.isspace (list_ascii_of_string s).

(** The string is not empty and neither begins nor ends with whitespace. *)
Definition trimmed (s : string) : bool :=
  match list_ascii_of_string s with
  | [] => false
  | c :: l => negb (Py.isspace c) && negb (Py.isspace (last l c))
  end.

(** A series of assignments [d[k] = v]. *)
Definition set_all {V : Type} (d : Dict.t V) (kvs : list (string * V)) : Dict.t V :=
  fold_left (fun d kv => Dict.setitem d (fst kv) (snd kv)) kvs d.

(** The assignments a batch makes to the knowledge and to the repo
    registry under a disable-list. *)
Definition knowledge_entries (disabled : list string) (ms : list MicroAgent.t)
    : list (string * KnowledgeMicroAgent) :=
  flat_map
    (fun m =>
       match m with
       | MicroAgent.Knowledge a =>
           if Py.contains (MicroAgent.name a) disabled then []
           else [(MicroAgent.name a, a)]
       | _ => []
       end)
    ms.

Definition repo_entries (disabled : list string) (ms : list MicroAgent.t)
    : list (string * RepoMicroAgent) :=
  flat_map
    (fun m =>
       match m with
       | MicroAgent.Repo a =>
           if Py.contains (MicroAgent.name a) disabled then []
           else [(MicroAgent.name a, a)]
       | _ => []
       end)
    ms.

(** The registries are dictionaries: no key occurs twice. *)
Definition well_formed (self : PromptManager) : Prop :=
  NoDup (Dict.keys (knowledge_microagents self)) /\
  NoDup (Dict.keys (repo_microagents self)).

(** The entries of a loaded collection that the constructor keeps. *)
Definition enabled_items {V : Type} (disabled : list string) (d : Dict.t V)
    : list (string * V) :=
  filter (fun kv => negb (Py.contains (fst kv) disabled)) (Dict.items d).

(** The block list a call inserts when it inserts [text] under [cond]. *)
Definition block_if (cond : bool) (text : string) : list Content :=
  if cond then [TextContent text] else [].

(** A message with one image and no text. *)
Definition image_message : Message :=
  mkMessage "user" [ImageContent ["https://example.com/git.png"]].

(** A renderer that gives whitespace only. *)
Definition blank_render (t : Template) (ctx : Context) : string := "  ".

(** A renderer that gives one no-break space. *)
Definition nbsp_render (t : Template) (ctx : Context) : string :=
  String Py.nbsp_char "".

(** A second knowledge microagent under the name [git]. *)
Definition other_git_agent : KnowledgeMicroAgent :=
  MicroAgent.mkKnowledge (MicroAgent.mkBase "git" "Prefer rebase.")
    (keyword_matcher "rebase").

(** A repo microagent under the name [repo] with other instructions. *)
Definition other_repo_agent : RepoMicroAgent :=
  MicroAgent.mkRepo (MicroAgent.mkBase "repo" "Lint before a push.").

(** A loader whose knowledge collection holds a repo microagent under the
    disabled name [docker]. *)
Definition malformed_loader (dir : string)
    : Dict.t MicroAgent.t * Dict.t MicroAgent.t * Dict.t MicroAgent.t :=
  ([],
   [("git", MicroAgent.Knowledge git_agent);
    ("docker", MicroAgent.Repo repo_agent)],
   []).

(** A manager whose example message names [git]. *)
Definition git_example_manager : PromptManager :=
  mkPromptManager [] (Some "/prompts") None
    (mkTemplate "You are an agent.") (mkTemplate " Example: use git ")
    (mkTemplate "Info: ") (mkTemplate "Triggered: ")
    (mkRuntimeInfo Dict.empty)
    [("git", git_agent)] Dict.empty.

(** A knowledge microagent triggered by the word [REMINDER], and a manager
    that holds it. *)
Definition reminder_agent : KnowledgeMicroAgent :=
  MicroAgent.mkKnowledge (MicroAgent.mkBase "reminder" "Mind the budget.")
    (keyword_matcher "REMINDER").

Definition reminder_manager : PromptManager :=
  set_knowledge_microagents
    [("git", git_agent); ("reminder", reminder_agent)] demo_manager.

(** The manager [PromptManager("/prompts", None, ["docker"])]. *)
Definition fresh_manager : PromptManager :=
  mkPromptManager ["docker"] (Some "/prompts") None
    (mkTemplate system_prompt_text) (mkTemplate "Example: ")
    (mkTemplate "Info: ") (mkTemplate "Triggered: ")
    (mkRuntimeInfo Dict.empty) Dict.empty Dict.empty.

(** The two setter calls, recognised. *)
Definition is_set_repository_info (c : MutatingCall) : bool :=
  match c with
  | SetRepositoryInfo _ _ => true
  | _ => false
  end.

Definition is_set_runtime_info (c : MutatingCall) : bool :=
  match c with
  | SetRuntimeInfo _ => true
  | _ => false
  end.

(* ------------------------------------------------------------------ *)
(** ** Lists, enumeration and the scan from the end *)

Lemma enumerate_from_app (A : Type) (l1 l2 : list A) :
  forall start,
    Py.enumerate_from start (l1 ++ l2) =
    Py.enumerate_from start l1 ++ Py.enumerate_from (start + List.length l1) l2.
Proof.
  unfold Py.enumerate_from.
  induction l1 as [| x l1 IH]; intros start; simpl.
  - now rewrite Nat.add_0_r.
  - f_equal. rewrite IH. now rewrite Nat.add_succ_r.
Qed.

Lemma enumerate_from_In (A : Type) (l : list A) :
  forall start i x, In (i, x) (Py.enumerate_from start l) -> In x l.
Proof.
  intros start i x H. unfold Py.enumerate_from in H.
  now apply in_combine_r in H.
Qed.

Lemma filter_all_false (A : Type) (p : A -> bool) (l : list A) :
  (forall x, In x l -> p x = false) -> filter p l = [].
Proof.
  induction l as [| x l IH]; intros H; simpl; [reflexivity |].
  rewrite (H x (or_introl eq_refl)). apply IH.
  intros y Hy. apply H. now right.
Qed.

Lemma replace_at_middle (A : Type) (pre post : list A) (x y : A) :
  replace_at (List.length pre) y (pre ++ x :: post) = pre ++ y :: post.
Proof.
  induction pre as [| z pre IH]; simpl; [reflexivity | now rewrite IH].
Qed.

(** Every list either has no element satisfying [p], or splits at the last
    element that does. *)
Lemma last_match_split (A : Type) (p : A -> bool) (l : list A) :
  (forall x, In x l -> p x = false) \/
  (exists pre x post,
      l = pre ++ x :: post /\ p x = true /\
      (forall y, In y post -> p y = false)).
Proof.
  induction l as [| a l IH].
  - left. intros x [].
  - destruct IH as [Hnone | (pre & x & post & -> & Hx & Hpost)].
    + destruct (p a) eqn:Ha.
      * right. exists [], a, l. repeat split; assumption.
      * left. intros x [<- | Hin]; [assumption | now apply Hnone].
    + right. exists (a :: pre), x, post. repeat split; assumption.
Qed.

(** The generator of [add_turns_left_reminder] yields first the last
    matching message of the list. *)
Lemma latest_user_message_found (pre post : list Message) (m : Message) :
  is_user_text_message m = true ->
  (forall m', In m' post -> is_user_text_message m' = false) ->
  Py.next
    (Py.islice
       (filter (fun im => is_user_text_message (snd im))
          (Py.reversed (Py.enumerate (pre ++ m :: post))))
       1)
    None = Some (List.length pre, m).
Proof.
  intros Hm Hpost.
  unfold Py.enumerate, Py.reversed.
  rewrite enumerate_from_app. simpl.
  change (Py.enumerate_from (List.length pre) (m :: post))
    with ((List.length pre, m) :: Py.enumerate_from (S (List.length pre)) post).
  rewrite rev_app_distr. simpl. rewrite <- app_assoc. simpl.
  rewrite filter_app.
  rewrite (@filter_all_false _ _ (rev (Py.enumerate_from _ post))).
  - simpl. rewrite Hm. reflexivity.
  - intros [i x] Hin. simpl. apply Hpost.
    apply in_rev in Hin. eapply enumerate_from_In; eassumption.
Qed.

Lemma latest_user_message_none (messages : list Message) :
  (forall m, In m messages -> is_user_text_message m = false) ->
  Py.next
    (Py.islice
       (filter (fun im => is_user_text_message (snd im))
          (Py.reversed (Py.enumerate messages)))
       1)
    None = None.
Proof.
  intros Hnone. rewrite filter_all_false; [reflexivity |].
  intros [i x] Hin. simpl. apply Hnone.
  apply in_rev in Hin. eapply enumerate_from_In; eassumption.
Qed.

Lemma add_turns_left_reminder_found (pre post : list Message) (m : Message)
    (state : State) :
  is_user_text_message m = true ->
  (forall m', In m' post -> is_user_text_message m' = false) ->
  add_turns_left_reminder (pre ++ m :: post) state =
  pre ++ with_reminder state m :: post.
Proof.
  intros Hm Hpost. unfold add_turns_left_reminder.
  rewrite (latest_user_message_found pre post m Hm Hpost).
  apply replace_at_middle.
Qed.

Lemma add_turns_left_reminder_none (messages : list Message) (state : State) :
  (forall m, In m messages -> is_user_text_message m = false) ->
  add_turns_left_reminder messages state = messages.
Proof.
  intros Hnone. unfold add_turns_left_reminder.
  now rewrite (latest_user_message_none messages Hnone).
Qed.

(** [str] of a negative integer is the minus sign before [str] of its
    opposite, and [str(0)] is ["0"]. *)
Lemma str_of_int_neg (n : Z) :
  (n < 0)%Z -> Py.str_of_int n = "-" +++ Py.str_of_int (- n).
Proof.
  destruct n as [| p | p]; intros H; try lia. reflexivity.
Qed.

Lemma str_of_int_zero : Py.str_of_int 0 = "0".
Proof. reflexivity. Qed.

(* ------------------------------------------------------------------ *)
(** ** The remaining-turns reminder *)

(** C1, as stated, fails: on [[user("a"), assistant("b"), user("c")]] with
    [max_iterations=10] and [iteration=3] the reminder with 7 turns left is
    appended to the latest user message (["c"]); the first user message
    (["a"]) is left as it was, so the outcome is not the one of a scan that
    skips the most recent message. *)
Lemma add_turns_left_reminder_does_not_skip_latest :
  add_turns_left_reminder example_messages example_state =
    [user_message "a";
     assistant_message "b";
     mkMessage "user" [TextContent "c"; TextContent seven_turns_reminder]]
  /\ nth_error (add_turns_left_reminder example_messages example_state) 0 =
     Some (user_message "a")
  /\ skip_one_add_turns_left_reminder example_messages example_state =
     reminder_on_first_user_message
  /\ add_turns_left_reminder example_messages example_state <>
     skip_one_add_turns_left_reminder example_messages example_state.
Proof.
  assert (E : add_turns_left_reminder example_messages example_state =
              [user_message "a"; assistant_message "b";
               mkMessage "user"
                 [TextContent "c"; TextContent seven_turns_reminder]])
    by reflexivity.
  assert (E' : skip_one_add_turns_left_reminder example_messages example_state =
               reminder_on_first_user_message)
    by reflexivity.
  rewrite E, E'. repeat split.
  unfold reminder_on_first_user_message, user_message.
  intros H. inversion H.
Qed.

(** C1, amended: [add_turns_left_reminder(messages, state)] scans the list
    from the end without skipping any message, and appends the reminder
    block to the end of the content of the most recent user-role message
    that has at least one text block; every other message keeps its value,
    and the list is unchanged when no message qualifies.  On
    [[user("a"), assistant("b"), user("c")]] with [max_iterations=10] and
    [iteration=3] the reminder with 7 turns left goes to the latest user
    message (["c"]), not to the first (["a"]). *)
Theorem add_turns_left_reminder_latest_user_message :
  (forall (messages : list Message) (state : State),
      ((forall m, In m messages -> is_user_text_message m = false) /\
       add_turns_left_reminder messages state = messages)
      \/
      (exists pre m post,
          messages = pre ++ m :: post /\
          is_user_text_message m = true /\
          (forall m', In m' post -> is_user_text_message m' = false) /\
          add_turns_left_reminder messages state =
          pre ++ mkMessage (role m)
                   (content m ++ [TextContent (reminder_text state)]) :: post))
  /\ reminder_text example_state = seven_turns_reminder
  /\ add_turns_left_reminder example_messages example_state =
     [user_message "a";
      assistant_message "b";
      mkMessage "user" [TextContent "c"; TextContent seven_turns_reminder]].
Proof.
  split; [| split; reflexivity].
  intros messages state.
  destruct (last_match_split is_user_text_message messages)
    as [Hnone | (pre & m & post & -> & Hm & Hpost)].
  - left. split; [assumption |].
    now apply add_turns_left_reminder_none.
  - right. exists pre, m, post. repeat split; try assumption.
    now apply add_turns_left_reminder_found.
Qed.

(** C10: the remaining-turn count is [max_iterations - iteration] with no
    lower bound.  When [iteration >= max_iterations] and the list has a
    user message with a text block, the reminder is still appended to the
    latest one, and the number it states is ["0"] or begins with a minus
    sign. *)
Theorem add_turns_left_reminder_no_lower_bound
    (pre post : list Message) (m : Message) (state : State) :
  (iteration state >= max_iterations state)%Z ->
  is_user_text_message m = true ->
  (forall m', In m' post -> is_user_text_message m' = false) ->
  let remaining := (max_iterations state - iteration state)%Z in
  add_turns_left_reminder (pre ++ m :: post) state =
    pre ++
    mkMessage (role m)
      (content m ++
       [TextContent
          (Py.nl +++ Py.nl +++ "ENVIRONMENT REMINDER: You have "
           +++ Py.str_of_int remaining
           +++ " turns left to complete the task. When finished reply with <finish></finish>.")])
    :: post
  /\ (remaining <= 0)%Z
  /\ (remaining = 0%Z -> Py.str_of_int remaining = "0")
  /\ ((remaining < 0)%Z ->
      Py.str_of_int remaining =
      "-" +++ Py.str_of_int (iteration state - max_iterations state)).
Proof.
  intros Hge Hm Hpost remaining. repeat split.
  - now apply add_turns_left_reminder_found.
  - subst remaining. lia.
  - intros ->. reflexivity.
  - intros Hneg. rewrite (str_of_int_neg Hneg). do 2 f_equal.
    subst remaining. lia.
Qed.

(** With [max_iterations=3] and [iteration=5] the reminder on the example
    conversation states [-2] turns left. *)
Lemma add_turns_left_reminder_no_lower_bound_example :
  add_turns_left_reminder example_messages (mkState 3 5) =
    [user_message "a";
     assistant_message "b";
     mkMessage "user"
       [TextContent "c";
        TextContent
          (Py.nl +++ Py.nl +++
           "ENVIRONMENT REMINDER: You have -2 turns left to complete the task. When finished reply with <finish></finish>.")]].
Proof.
  refine (proj1 (@add_turns_left_reminder_no_lower_bound
                   [user_message "a"; assistant_message "b"] []
                   (user_message "c") (mkState 3 5) _ _ _)).
  - simpl. lia.
  - reflexivity.
  - intros m' [].
Defined.

(* ------------------------------------------------------------------ *)
(** ** Trigger matching and the last text block *)

Lemma truthy_nonempty (s : string) : Py.truthy s = true <-> s <> "".
Proof.
  destruct s; simpl; split; intros H; congruence.
Qed.

Lemma collect_triggered_acc (text : string)
    (items : list (string * KnowledgeMicroAgent)) :
  forall acc,
    fold_left
      (fun triggered_agents item =>
         let microagent := snd item in
         match MicroAgent.match_trigger microagent text with
         | Some trigger =>
             if Py.truthy trigger
             then Py.append triggered_agents (mkTriggered microagent trigger)
             else triggered_agents
         | None => triggered_agents
         end)
      items acc = acc ++ flat_map (matches_of text) items.
Proof.
  induction items as [| item items IH]; intros acc; simpl.
  - now rewrite app_nil_r.
  - rewrite IH. unfold matches_of at 2. simpl.
    destruct (MicroAgent.match_trigger (snd item) text) as [trigger |];
      [destruct (Py.truthy trigger) |]; simpl; try reflexivity.
    unfold Py.append. now rewrite <- app_assoc.
Qed.

(** The loop checks every entry, in the order of the registry. *)
Lemma collect_triggered_flat_map (text : string)
    (items : list (string * KnowledgeMicroAgent)) :
  collect_triggered text items = flat_map (matches_of text) items.
Proof. unfold collect_triggered. now rewrite collect_triggered_acc. Qed.

Lemma matches_of_In (text : string) (items : list (string * KnowledgeMicroAgent))
    (key : string) (a : KnowledgeMicroAgent) (trigger : string) :
  In (key, a) items ->
  MicroAgent.match_trigger a text = Some trigger ->
  trigger <> "" ->
  In (mkTriggered a trigger) (flat_map (matches_of text) items).
Proof.
  intros Hin Hmatch Hne. apply in_flat_map. exists (key, a). split; [assumption |].
  unfold matches_of. simpl. rewrite Hmatch.
  apply truthy_nonempty in Hne. rewrite Hne. now left.
Qed.

Lemma matches_of_none (text : string) (items : list (string * KnowledgeMicroAgent)) :
  (forall key a, In (key, a) items ->
                 Py.truthy_opt (MicroAgent.match_trigger a text) = false) ->
  flat_map (matches_of text) items = [].
Proof.
  induction items as [| [key a] items IH]; intros H; simpl; [reflexivity |].
  rewrite IH by (intros k b Hin; apply (H k b); now right).
  unfold matches_of. simpl.
  specialize (H key a (or_introl eq_refl)).
  destruct (MicroAgent.match_trigger a text) as [trigger |]; simpl in *;
    [now rewrite H | reflexivity].
Qed.

Lemma first_text_skip (l1 l2 : list Content) :
  (forall c, In c l1 -> is_TextContent c = false) ->
  first_text (l1 ++ l2) = first_text l2.
Proof.
  induction l1 as [| c l1 IH]; intros H; simpl; [reflexivity |].
  destruct c as [text | urls].
  - specialize (H (TextContent text) (or_introl eq_refl)). discriminate.
  - apply IH. intros c Hc. apply H. now right.
Qed.

(** The text the trigger matching reads is the text of the last text
    block. *)
Lemma last_text_split (pre post : list Content) (text : string) :
  (forall c, In c post -> is_TextContent c = false) ->
  last_text (pre ++ TextContent text :: post) = text.
Proof.
  intros H. unfold last_text, Py.reversed.
  rewrite rev_app_distr. simpl. rewrite <- app_assoc.
  rewrite first_text_skip; [reflexivity |].
  intros c Hc. apply H. now apply in_rev.
Qed.

Lemma last_text_nil : last_text [] = "".
Proof. reflexivity. Qed.

(* ------------------------------------------------------------------ *)
(** ** Registries and the disable-list *)

Lemma contains_In (x : string) (l : list string) :
  Py.contains x l = true <-> In x l.
Proof.
  unfold Py.contains. rewrite existsb_exists. split.
  - intros (y & Hy & Heq). apply String.eqb_eq in Heq. now subst.
  - intros H. exists x. split; [assumption | apply String.eqb_refl].
Qed.

Lemma contains_false (x : string) (l : list string) :
  Py.contains x l = false -> ~ In x l.
Proof.
  intros H Hin. apply contains_In in Hin. congruence.
Qed.

Lemma setitem_keys (V : Type) (d : Dict.t V) (k k' : string) (v : V) :
  In k (Dict.keys (Dict.setitem d k' v)) -> In k (Dict.keys d) \/ k = k'.
Proof.
  induction d as [| [k0 v0] d IH]; simpl.
  - intros [<- | []]. now right.
  - destruct (String.eqb k0 k'); simpl.
    + intros H. now left.
    + intros [<- | H]; [left; now left |].
      destruct (IH H) as [H' | H']; [left; now right | now right].
Qed.

Lemma register_enabled_keys (V : Type) (disabled : list string)
    (loaded : Dict.t V) :
  forall (registry : Dict.t V) (k : string),
    In k (Dict.keys (register_enabled disabled loaded registry)) ->
    In k (Dict.keys registry) \/ ~ In k disabled.
Proof.
  unfold register_enabled, Dict.items.
  induction loaded as [| [k0 v0] loaded IH]; intros registry k H; simpl in H.
  - now left.
  - destruct (IH _ _ H) as [Hk | Hk]; [| now right].
    destruct (Py.contains k0 disabled) eqn:Hc; simpl in Hk; [now left |].
    destruct (setitem_keys _ _ _ _ Hk) as [Hk' | ->]; [now left |].
    right. now apply contains_false.
Qed.

Lemma exec_for_each_cons (A : Type) (x : A) (l : list A)
    (body : A -> Method unit) (self : PromptManager) :
  exec (for_each (x :: l) body) self = exec (for_each l body) (exec (body x) self).
Proof.
  unfold exec. simpl. unfold mbind. now destruct (body x self).
Qed.

Lemma load_microagent_disabled (m : MicroAgent.t) (self : PromptManager) :
  disabled_microagents (exec (load_microagent m) self) = disabled_microagents self.
Proof.
  unfold exec, load_microagent.
  destruct (Py.contains _ _); [reflexivity |].
  now destruct m.
Qed.

Lemma load_microagent_invariant (m : MicroAgent.t) (self : PromptManager) :
  no_disabled_registered self ->
  no_disabled_registered (exec (load_microagent m) self).
Proof.
  intros Hinv. unfold exec, load_microagent.
  destruct (Py.contains _ _) eqn:Hc; [exact Hinv |].
  apply contains_false in Hc.
  destruct m as [a | a | a]; simpl in *; try exact Hinv;
    intros n Hn; destruct (Hinv n Hn) as [Hk Hr]; split; simpl;
    try assumption; intros Hin;
    destruct (setitem_keys _ _ _ _ Hin) as [H | ->]; contradiction.
Qed.

Lemma load_microagents_disabled (ms : list MicroAgent.t) :
  forall self,
    disabled_microagents (exec (load_microagents ms) self) =
    disabled_microagents self.
Proof.
  unfold load_microagents.
  induction ms as [| m ms IH]; intros self; [reflexivity |].
  rewrite exec_for_each_cons, IH. apply load_microagent_disabled.
Qed.

Lemma load_microagents_invariant (ms : list MicroAgent.t) :
  forall self,
    no_disabled_registered self ->
    no_disabled_registered (exec (load_microagents ms) self).
Proof.
  unfold load_microagents.
  induction ms as [| m ms IH]; intros self Hinv; [exact Hinv |].
  rewrite exec_for_each_cons. apply IH. now apply load_microagent_invariant.
Qed.

(** Entries that are disabled or of neither class have no effect. *)
Lemma load_microagents_filter (ms : list MicroAgent.t) :
  forall self,
    exec (load_microagents ms) self =
    exec (load_microagents
            (filter (takes_effect (disabled_microagents self)) ms)) self.
Proof.
  unfold load_microagents.
  induction ms as [| m ms IH]; intros self; [reflexivity |].
  rewrite exec_for_each_cons. simpl filter.
  destruct (takes_effect (disabled_microagents self) m) eqn:Ht.
  - rewrite exec_for_each_cons, IH. now rewrite load_microagent_disabled.
  - assert (Hskip : exec (load_microagent m) self = self).
    { unfold takes_effect in Ht. unfold exec, load_microagent.
      destruct (Py.contains _ _); [reflexivity |].
      destruct m; simpl in Ht; try discriminate. reflexivity. }
    rewrite Hskip. apply IH.
Qed.

Lemma mutate_disabled (c : MutatingCall) (self : PromptManager) :
  disabled_microagents (exec (mutate c) self) = disabled_microagents self.
Proof.
  destruct c; simpl; [apply load_microagents_disabled | reflexivity ..].
Qed.

Lemma mutate_invariant (c : MutatingCall) (self : PromptManager) :
  no_disabled_registered self ->
  no_disabled_registered (exec (mutate c) self).
Proof.
  destruct c; simpl; intros Hinv;
    [now apply load_microagents_invariant | exact Hinv ..].
Qed.

Lemma after_calls_disabled (calls : list MutatingCall) :
  forall self,
    disabled_microagents (after_calls self calls) = disabled_microagents self.
Proof.
  unfold after_calls.
  induction calls as [| c calls IH]; intros self; simpl; [reflexivity |].
  rewrite IH. apply mutate_disabled.
Qed.

Lemma after_calls_invariant (calls : list MutatingCall) :
  forall self,
    no_disabled_registered self ->
    no_disabled_registered (after_calls self calls).
Proof.
  unfold after_calls.
  induction calls as [| c calls IH]; intros self Hinv; simpl;
    [exact Hinv |].
  apply IH. now apply mutate_invariant.
Qed.

(* ------------------------------------------------------------------ *)
(** ** Loading one template *)

Section TemplateLoading.

Variable read_file : string -> option (result string).
Variable template_error : string -> option Exception.

(** With a prompt directory, [_load_template] either raises what stops the
    loading of the file, or returns the template of the text of the file,
    which compiles. *)
Lemma load_template_cases (dir name : string) :
  (exists e,
      template_load_error read_file template_error (template_path dir name)
        = Some e /\
      _load_template read_file template_error (Some dir) name = Raise e)
  \/
  (exists text,
      template_load_error read_file template_error (template_path dir name)
        = None /\
      read_file (template_path dir name) = Some (Ok text) /\
      template_error text = None /\
      _load_template read_file template_error (Some dir) name =
        Ok (mkTemplate text)).
Proof.
  unfold _load_template, template_load_error, template_path, compile_template.
  destruct (read_file (Py.path_join dir (name +++ ".j2")))
    as [[text | e] |]; cbn [rbind].
  - destruct (template_error text) as [e |] eqn:E.
    + left. exists e. now split.
    + right. exists text. repeat split; assumption.
  - left. exists e. now split.
  - left. eexists. split; reflexivity.
Qed.

End TemplateLoading.

Lemma no_disabled_registered_empty (self : PromptManager) :
  knowledge_microagents self = [] ->
  repo_microagents self = [] ->
  no_disabled_registered self.
Proof.
  intros Hk Hr n _. rewrite Hk, Hr. split; intros [].
Qed.

(** The successful loading of the template [name] in the hypothesis [H]. *)
Ltac load_template_ok H read_file template_error dir name text Hread Hcompile :=
  let e := fresh "e" in
  let E := fresh "E" in
  destruct (load_template_cases read_file template_error dir name)
    as [(e & _ & E) | (text & _ & Hread & Hcompile & E)];
  rewrite E in H; clear E; cbn [rbind] in H; [discriminate |].

(* ------------------------------------------------------------------ *)
(** ** The manager: composition, registries, construction *)

Section ManagerProperties.

Variable render : Template -> Context -> string.
Variable read_file : string -> option (result string).
Variable template_error : string -> option Exception.
Variable load_microagents_from_dir :
  string -> Dict.t MicroAgent.t * Dict.t MicroAgent.t * Dict.t MicroAgent.t.

(** C3: when some registered knowledge microagent matches the last text
    block of the message with a keyword (a non-empty keyword in a non-empty
    text), [enhance_message] checks every registered knowledge microagent
    against the text of that block, in the order of the registry and
    without stopping at the first match, and inserts exactly one text
    block at index 0: the trimmed render of the microagent-info template
    over the list of all matches.  The blocks that were there follow
    unchanged.  The last text block is given by its place: the content is
    [pre ++ TextContent text :: post] with no text block in [post]. *)
Theorem enhance_message_prepends_all_matches
    (self : PromptManager) (message : Message)
    (pre post : list Content) (text : string)
    (key : string) (a : KnowledgeMicroAgent) (trigger : string) :
  content message = pre ++ TextContent text :: post ->
  (forall c, In c post -> is_TextContent c = false) ->
  In (key, a) (Dict.items (knowledge_microagents self)) ->
  MicroAgent.match_trigger a text = Some trigger ->
  trigger <> "" ->
  text <> "" ->
  let all_matches :=
    flat_map (matches_of text) (Dict.items (knowledge_microagents self)) in
  enhance_message render self message =
    mkMessage (role message)
      (TextContent
         (Py.strip
            (render (microagent_info_template self)
               [("triggered_agents", VTriggeredAgents all_matches)]))
       :: pre ++ TextContent text :: post)
  /\ In (mkTriggered a trigger) all_matches
  /\ (forall key' a' trigger',
         In (key', a') (Dict.items (knowledge_microagents self)) ->
         MicroAgent.match_trigger a' text = Some trigger' ->
         trigger' <> "" ->
         In (mkTriggered a' trigger') all_matches)
  /\ (forall matched,
         In matched all_matches ->
         trigger_word matched <> "" /\
         MicroAgent.match_trigger (agent matched) text =
           Some (trigger_word matched) /\
         exists key',
           In (key', agent matched) (Dict.items (knowledge_microagents self))).
Proof.
  intros Hcontent Hpost Hin Hmatch Hne Htext all_matches.
  assert (Hall : In (mkTriggered a trigger) all_matches)
    by (eapply matches_of_In; eassumption).
  assert (Hlast : last_text (content message) = text)
    by (rewrite Hcontent; now apply last_text_split).
  split; [| split; [exact Hall | split]].
  - unfold enhance_message. rewrite Hlast, Hcontent.
    assert (Hlist : Py.truthy_list (pre ++ TextContent text :: post) = true)
      by now destruct pre.
    apply truthy_nonempty in Htext.
    rewrite Hlist, Htext. simpl negb. cbv iota.
    rewrite collect_triggered_flat_map.
    subst all_matches.
    destruct (flat_map _ _) as [| ta tas]; [destruct Hall | reflexivity].
  - intros key' a' trigger' Hin' Hmatch' Hne'.
    eapply matches_of_In; eassumption.
  - intros matched Hm. subst all_matches.
    apply in_flat_map in Hm. destruct Hm as ([key' a'] & Hitem & Hm).
    unfold matches_of in Hm. simpl in Hm.
    destruct (MicroAgent.match_trigger a' text) as [trigger' |] eqn:E;
      [| destruct Hm].
    destruct (Py.truthy trigger') eqn:Et; [| destruct Hm].
    destruct Hm as [<- | []]. simpl.
    split; [now apply truthy_nonempty | split; [exact E | now exists key']].
Qed.

(** C4: [enhance_message] leaves the message as it is when its content
    list is empty, and when no registered knowledge microagent matches the
    last text block (its matcher returns [None], or a falsy keyword). *)
Theorem enhance_message_noop (self : PromptManager) (message : Message) :
  content message = [] \/
  (forall key a,
      In (key, a) (Dict.items (knowledge_microagents self)) ->
      Py.truthy_opt
        (MicroAgent.match_trigger a (last_text (content message))) = false) ->
  enhance_message render self message = message.
Proof.
  intros [Hempty | Hnone]; unfold enhance_message.
  - now rewrite Hempty.
  - destruct (negb (Py.truthy_list (content message))); [reflexivity |].
    destruct (negb (Py.truthy (last_text (content message)))); [reflexivity |].
    rewrite collect_triggered_flat_map.
    now rewrite (matches_of_none _ _ Hnone).
Qed.

(** C9: only the last text block is matched.  When the text of the last
    text block is the empty string, [enhance_message] leaves the message as
    it is, whatever the earlier blocks hold and whatever the registered
    microagents would match. *)
Theorem enhance_message_empty_last_text
    (self : PromptManager) (message : Message) (pre post : list Content) :
  content message = pre ++ TextContent "" :: post ->
  (forall c, In c post -> is_TextContent c = false) ->
  enhance_message render self message = message.
Proof.
  intros Hc Hpost. unfold enhance_message.
  rewrite Hc, (@last_text_split pre post "" Hpost). simpl.
  now destruct (negb (Py.truthy_list (pre ++ TextContent "" :: post))).
Qed.

(** C2: [add_info_to_initial_message] requires at most one registered repo
    microagent.  With two or more entries in the repo registry the call
    raises the assertion fault; with none or one it raises nothing and
    returns the message. *)
Theorem add_info_to_initial_message_at_most_one_repo
    (self : PromptManager) (message : Message) :
  (2 <= Dict.len (repo_microagents self) ->
   add_info_to_initial_message render self message = Raise AssertionError)
  /\
  (Dict.len (repo_microagents self) <= 1 ->
   exists message',
     add_info_to_initial_message render self message = Ok message').
Proof.
  unfold add_info_to_initial_message, assert. split; intros H.
  - destruct (Nat.leb_spec (Dict.len (repo_microagents self)) 1) as [Hle | Hgt];
      [lia | reflexivity].
  - apply Nat.leb_le in H. rewrite H. simpl.
    match goal with
    | |- context [if ?b then _ else _] => destruct b
    end; eexists; reflexivity.
Qed.

Lemma call_unchanged_or_inserts (self : PromptManager) (c : Call)
    (m m1 : Message) :
  call render self c m = Ok m1 ->
  m1 = m \/
  exists text,
    m1 = mkMessage (role m) (Py.insert 0 (TextContent text) (content m)).
Proof.
  destruct c; simpl.
  - unfold enhance_message. intros H.
    repeat match type of H with
           | context [if ?b then _ else _] => destruct b
           end; inversion H; eauto.
  - unfold add_examples_to_initial_message. intros H.
    destruct (Py.truthy _); inversion H; eauto.
  - unfold add_info_to_initial_message. intros H.
    destruct (assert _); simpl in H; [| discriminate].
    destruct (Py.truthy _); inversion H; eauto.
Qed.

(** C8: each of [enhance_message], [add_examples_to_initial_message] and
    [add_info_to_initial_message] inserts its text block at index 0 of the
    content of the message.  After any sequence of such calls on one
    message, the inserted blocks stand at the front in the reverse of call
    order (the block of the last call first), and the content the message
    started with follows them, unchanged. *)
Theorem injected_blocks_reverse_call_order
    (self : PromptManager) (calls : list Call) (m m' : Message) :
  run_calls render self calls m = Ok m' ->
  exists blocks,
    CallTrace render self m calls blocks m' /\
    m' = mkMessage (role m) (rev blocks ++ content m).
Proof.
  revert m. induction calls as [| c calls IH]; intros m H; simpl in H.
  - inversion H; subst. exists []. split; [constructor | now destruct m'].
  - destruct (call render self c m) as [m1 | e] eqn:Hcall; simpl in H;
      [| discriminate].
    destruct (IH m1 H) as (blocks & Htrace & Hm').
    destruct (call_unchanged_or_inserts self c m Hcall) as [-> | [text ->]].
    + exists blocks. split; [| assumption].
      now apply trace_unchanged.
    + exists (TextContent text :: blocks). split.
      * now apply trace_insert.
      * rewrite Hm'. simpl. now rewrite <- app_assoc.
Qed.

(** What a successful construction leaves: the four templates are the
    texts of the four files of the prompt directory, which compile, the
    disable-list is the one given, and no disabled name is registered. *)
Lemma init_inversion (prompt_dir microagent_dir : option string)
    (disabled : option (list string)) (self : PromptManager) :
  __init__ read_file template_error load_microagents_from_dir prompt_dir microagent_dir disabled
    = Ok self ->
  exists dir,
    prompt_dir = Some dir /\
    read_file (Py.path_join dir "system_prompt.j2") =
      Some (Ok (source (system_template self))) /\
    read_file (Py.path_join dir "user_prompt.j2") =
      Some (Ok (source (user_template self))) /\
    read_file (Py.path_join dir "additional_info.j2") =
      Some (Ok (source (additional_info_template self))) /\
    read_file (Py.path_join dir "microagent_info.j2") =
      Some (Ok (source (microagent_info_template self))) /\
    disabled_microagents self = disabled_or_empty disabled /\
    no_disabled_registered self.
Proof.
  unfold __init__. intros H.
  destruct prompt_dir as [dir |]; [| discriminate]. exists dir.
  load_template_ok H read_file template_error dir "system_prompt" t1 R1 C1.
  load_template_ok H read_file template_error dir "user_prompt" t2 R2 C2.
  load_template_ok H read_file template_error dir "additional_info" t3 R3 C3.
  load_template_ok H read_file template_error dir "microagent_info" t4 R4 C4.
  destruct microagent_dir as [mdir |];
    [destruct (Py.truthy mdir);
     [destruct (load_microagents_from_dir mdir) as [[loaded_repo loaded_knowledge] other];
      destruct (assert_all_isinstance MicroAgent.as_knowledge loaded_knowledge)
        as [knowledge | e]; cbn [rbind] in H; [| discriminate];
      destruct (assert_all_isinstance MicroAgent.as_repo loaded_repo)
        as [repo | e]; cbn [rbind] in H; [| discriminate] |] |];
    inversion H; subst; clear H; simpl;
    (split; [reflexivity |]);
    (split; [exact R1 |]); (split; [exact R2 |]);
    (split; [exact R3 |]); (split; [exact R4 |]);
    (split; [reflexivity |]);
    try (apply no_disabled_registered_empty; reflexivity).
  intros n Hn. simpl in *. split; intros Hin;
    apply register_enabled_keys in Hin; destruct Hin as [[] | Hnot];
    contradiction.
Qed.

(** C5: after any construction and any series of [load_microagents] calls
    (and of the two setters), the disable-list is the one the constructor
    was given and none of its names is a key of the knowledge or of the
    repo registry; a further [load_microagents] call, which has no error
    outcome, acts as if the entries whose name is disabled and the entries
    that are neither a knowledge nor a repo microagent had not been
    passed. *)
Theorem disabled_microagents_never_registered
    (prompt_dir microagent_dir : option string)
    (disabled : option (list string)) (self : PromptManager)
    (calls : list MutatingCall) :
  __init__ read_file template_error load_microagents_from_dir prompt_dir microagent_dir disabled
    = Ok self ->
  let self' := after_calls self calls in
  disabled_microagents self' = disabled_or_empty disabled
  /\ (forall n,
        In n (disabled_microagents self') ->
        ~ In n (Dict.keys (knowledge_microagents self')) /\
        ~ In n (Dict.keys (repo_microagents self')))
  /\ (forall microagents,
        exec (load_microagents microagents) self' =
        exec (load_microagents
                (filter (takes_effect (disabled_microagents self')) microagents))
          self').
Proof.
  intros H self'.
  destruct (init_inversion _ _ _ H) as (dir & _ & _ & _ & _ & _ & Hdis & Hinv).
  split; [| split].
  - subst self'. now rewrite after_calls_disabled.
  - apply (after_calls_invariant calls Hinv).
  - intros microagents. apply load_microagents_filter.
Qed.

(** C6: construction fails at once when the prompt directory is unset
    ([ValueError]) and when any of the four template files is missing: it
    raises what stops the loading of the first of the four files, in
    loading order, that cannot be loaded, which is [FileNotFoundError]
    naming a missing file whenever the files that exist can be read and
    compile.  When the construction succeeds, each template is the text of
    its file: there is no default or fallback template. *)
Theorem init_fails_fast_on_missing_templates :
  (forall microagent_dir disabled,
      __init__ read_file template_error load_microagents_from_dir None microagent_dir disabled
      = Raise (ValueError "Prompt directory is not set"))
  /\
  (forall dir microagent_dir disabled name,
      In name template_names ->
      read_file (Py.path_join dir (name +++ ".j2")) = None ->
      exists e before culprit after,
        template_names = before ++ culprit :: after /\
        (forall n, In n before ->
           template_load_error read_file template_error (template_path dir n)
           = None) /\
        template_load_error read_file template_error (template_path dir culprit)
          = Some e /\
        __init__ read_file template_error load_microagents_from_dir (Some dir) microagent_dir
          disabled = Raise e)
  /\
  (forall dir microagent_dir disabled name,
      In name template_names ->
      read_file (Py.path_join dir (name +++ ".j2")) = None ->
      (forall n, In n template_names ->
         read_file (Py.path_join dir (n +++ ".j2")) = None \/
         exists text,
           read_file (Py.path_join dir (n +++ ".j2")) = Some (Ok text) /\
           template_error text = None) ->
      exists missing,
        In missing template_names /\
        read_file (Py.path_join dir (missing +++ ".j2")) = None /\
        __init__ read_file template_error load_microagents_from_dir (Some dir) microagent_dir
          disabled
        = Raise (FileNotFoundError
                   ("Prompt file " +++ Py.path_join dir (missing +++ ".j2")
                    +++ " not found")))
  /\
  (forall dir microagent_dir disabled self,
      __init__ read_file template_error load_microagents_from_dir (Some dir) microagent_dir
        disabled = Ok self ->
      read_file (Py.path_join dir "system_prompt.j2") =
        Some (Ok (source (system_template self))) /\
      read_file (Py.path_join dir "user_prompt.j2") =
        Some (Ok (source (user_template self))) /\
      read_file (Py.path_join dir "additional_info.j2") =
        Some (Ok (source (additional_info_template self))) /\
      read_file (Py.path_join dir "microagent_info.j2") =
        Some (Ok (source (microagent_info_template self)))).
Proof.
  assert (Hfirst :
            forall dir microagent_dir disabled name,
              In name template_names ->
              read_file (Py.path_join dir (name +++ ".j2")) = None ->
              exists e before culprit after,
                template_names = before ++ culprit :: after /\
                (forall n, In n before ->
                   template_load_error read_file template_error
                     (template_path dir n) = None) /\
                template_load_error read_file template_error
                  (template_path dir culprit) = Some e /\
                __init__ read_file template_error load_microagents_from_dir
                  (Some dir) microagent_dir disabled = Raise e).
  { intros dir microagent_dir disabled name Hname Hmissing.
    unfold __init__.
    destruct (load_template_cases read_file template_error dir "system_prompt")
      as [(e & L1 & E1) | (t1 & L1 & R1 & _ & E1)]; rewrite E1; cbn [rbind].
    { exists e, [], "system_prompt", (tl template_names).
      repeat split; [intros n [] | exact L1]. }
    destruct (load_template_cases read_file template_error dir "user_prompt")
      as [(e & L2 & E2) | (t2 & L2 & R2 & _ & E2)]; rewrite E2; cbn [rbind].
    { exists e, ["system_prompt"], "user_prompt",
        ["additional_info"; "microagent_info"].
      repeat split; [| exact L2].
      intros n [<- | []]. exact L1. }
    destruct (load_template_cases read_file template_error dir "additional_info")
      as [(e & L3 & E3) | (t3 & L3 & R3 & _ & E3)]; rewrite E3; cbn [rbind].
    { exists e, ["system_prompt"; "user_prompt"], "additional_info",
        ["microagent_info"].
      repeat split; [| exact L3].
      intros n [<- | [<- | []]]; assumption. }
    destruct (load_template_cases read_file template_error dir "microagent_info")
      as [(e & L4 & E4) | (t4 & L4 & R4 & _ & E4)]; rewrite E4; cbn [rbind].
    { exists e, ["system_prompt"; "user_prompt"; "additional_info"],
        "microagent_info", [].
      repeat split; [| exact L4].
      intros n [<- | [<- | [<- | []]]]; assumption. }
    unfold template_path in *. simpl in Hname.
    destruct Hname as [<- | [<- | [<- | [<- | []]]]]; congruence. }
  split; [reflexivity | split; [exact Hfirst | split]].
  - intros dir microagent_dir disabled name Hname Hmissing Hwell.
    destruct (Hfirst dir microagent_dir disabled name Hname Hmissing)
      as (e & before & culprit & after & Hsplit & _ & Herr & Hinit).
    assert (Hin : In culprit template_names)
      by (rewrite Hsplit; apply in_or_app; right; now left).
    exists culprit. split; [exact Hin |].
    unfold template_load_error, template_path in Herr.
    destruct (Hwell culprit Hin) as [Hnone | (text & Hsome & Hok)].
    + split; [exact Hnone |]. rewrite Hnone in Herr.
      inversion Herr; subst. exact Hinit.
    + rewrite Hsome in Herr. congruence.
  - intros dir microagent_dir disabled self H.
    destruct (init_inversion _ _ _ H) as (dir' & Hd & H1 & H2 & H3 & H4 & _).
    inversion Hd; subst. repeat split; assumption.
Qed.

(** C7: for a manager constructed from a template directory,
    [get_system_message()] and [get_example_user_message()] return the
    trimmed render, with no variables, of the template read from
    [system_prompt.j2] and from [user_prompt.j2]; either call leaves the
    manager as it was, and two calls in a row return the same text. *)
Theorem rendered_messages_idempotent
    (prompt_dir microagent_dir : option string)
    (disabled : option (list string)) (self : PromptManager) :
  __init__ read_file template_error load_microagents_from_dir prompt_dir microagent_dir disabled
    = Ok self ->
  exists dir system_text user_text,
    prompt_dir = Some dir /\
    read_file (Py.path_join dir "system_prompt.j2") = Some (Ok system_text) /\
    read_file (Py.path_join dir "user_prompt.j2") = Some (Ok user_text) /\
    get_system_message render self =
      (Py.strip (render (mkTemplate system_text) []), self) /\
    get_example_user_message render self =
      (Py.strip (render (mkTemplate user_text) []), self) /\
    (x <- get_system_message render ;;
     y <- get_system_message render ;; mret (x, y))%method self =
      ((Py.strip (render (mkTemplate system_text) []),
        Py.strip (render (mkTemplate system_text) [])), self) /\
    (x <- get_example_user_message render ;;
     y <- get_example_user_message render ;; mret (x, y))%method self =
      ((Py.strip (render (mkTemplate user_text) []),
        Py.strip (render (mkTemplate user_text) [])), self).
Proof.
  intros H.
  destruct (init_inversion _ _ _ H) as (dir & Hd & H1 & H2 & _).
  exists dir, (source (system_template self)), (source (user_template self)).
  unfold get_system_message, get_example_user_message, reads, mbind, mret.
  destruct (system_template self) as [system_text].
  destruct (user_template self) as [user_text].
  simpl. repeat split; assumption.
Qed.

End ManagerProperties.

(* ------------------------------------------------------------------ *)
(** ** The properties on the concrete manager *)

(** Two repo microagents: the assertion fault; one: the message comes
    back. *)
Lemma add_info_to_initial_message_at_most_one_repo_example :
  add_info_to_initial_message demo_render two_repo_manager
    (user_message "use git") = Raise AssertionError
  /\ exists message',
       add_info_to_initial_message demo_render demo_manager
         (user_message "use git") = Ok message'.
Proof.
  split.
  - apply (proj1 (add_info_to_initial_message_at_most_one_repo demo_render
                    two_repo_manager (user_message "use git"))).
    simpl. lia.
  - apply (proj2 (add_info_to_initial_message_at_most_one_repo demo_render
                    demo_manager (user_message "use git"))).
    simpl. lia.
Defined.

(** The last text block ["use git"] is the one that is matched, not the
    earlier ["use docker only"]; and when both registered microagents
    match the last text block, the one block lists both in registry
    order. *)
Lemma enhance_message_prepends_all_matches_example :
  enhance_message demo_render two_knowledge_manager
    message_with_two_text_blocks =
  mkMessage "user"
    (TextContent "Triggered: git" :: content message_with_two_text_blocks)
  /\ enhance_message demo_render two_knowledge_manager
       (user_message "use git and docker") =
     mkMessage "user"
       [TextContent "Triggered: git,docker"; TextContent "use git and docker"].
Proof.
  split.
  - refine (proj1 (@enhance_message_prepends_all_matches demo_render
                     two_knowledge_manager message_with_two_text_blocks
                     [TextContent "use docker only";
                      ImageContent ["https://example.com/a.png"]]
                     [ImageContent ["https://example.com/b.png"]]
                     "use git" "git" git_agent "git" _ _ _ _ _ _)).
    + reflexivity.
    + intros c [<- | []]. reflexivity.
    + now left.
    + reflexivity.
    + discriminate.
    + discriminate.
  - refine (proj1 (@enhance_message_prepends_all_matches demo_render
                     two_knowledge_manager (user_message "use git and docker")
                     [] [] "use git and docker" "git" git_agent "git"
                     _ _ _ _ _ _)).
    + reflexivity.
    + intros c [].
    + now left.
    + reflexivity.
    + discriminate.
    + discriminate.
Defined.

(** No registered keyword in ["hello"]: the message is unchanged. *)
Lemma enhance_message_noop_example :
  enhance_message demo_render two_knowledge_manager (user_message "hello") =
  user_message "hello"
  /\ enhance_message demo_render two_knowledge_manager (mkMessage "user" []) =
     mkMessage "user" [].
Proof.
  split.
  - apply (@enhance_message_noop demo_render two_knowledge_manager
             (user_message "hello")).
    right. intros key a [H | [H | []]]; inversion H; reflexivity.
  - apply (@enhance_message_noop demo_render two_knowledge_manager
             (mkMessage "user" [])).
    now left.
Defined.

(** The earlier block ["use git"] holds a registered keyword, the last
    text block is empty: the message is unchanged. *)
Lemma enhance_message_empty_last_text_example :
  MicroAgent.match_trigger git_agent "use git" = Some "git"
  /\ enhance_message demo_render two_knowledge_manager
       message_with_empty_last_text = message_with_empty_last_text.
Proof.
  split; [reflexivity |].
  apply (@enhance_message_empty_last_text demo_render two_knowledge_manager
           message_with_empty_last_text [TextContent "use git"] []).
  - reflexivity.
  - intros c [].
Defined.

(** The three calls in the order enhance, examples, info: the info block
    is first, the microagent block third, the user text last. *)
Lemma injected_blocks_reverse_call_order_example :
  run_calls demo_render demo_manager
    [CallEnhance; CallAddExamples; CallAddInfo] (user_message "use git") =
  Ok (mkMessage "user"
        [TextContent "Info: Run the tests before a commit.";
         TextContent "Example:";
         TextContent "Triggered: git";
         TextContent "use git"])
  /\ exists blocks,
       CallTrace demo_render demo_manager (user_message "use git")
         [CallEnhance; CallAddExamples; CallAddInfo] blocks
         (mkMessage "user"
            [TextContent "Info: Run the tests before a commit.";
             TextContent "Example:";
             TextContent "Triggered: git";
             TextContent "use git"])
       /\ mkMessage "user"
            [TextContent "Info: Run the tests before a commit.";
             TextContent "Example:";
             TextContent "Triggered: git";
             TextContent "use git"] =
          mkMessage "user" (rev blocks ++ [TextContent "use git"]).
Proof.
  split; [reflexivity |].
  apply (@injected_blocks_reverse_call_order demo_render demo_manager
           [CallEnhance; CallAddExamples; CallAddInfo]
           (user_message "use git")).
  reflexivity.
Defined.

(** The manager built with ["docker"] disabled, after a batch that names
    [docker] again: [docker] is in neither registry. *)
Lemma disabled_microagents_never_registered_example :
  __init__ demo_files demo_template_error demo_loader (Some "/prompts") (Some "/microagents")
    (Some ["docker"]) = Ok demo_manager
  /\ Dict.keys (knowledge_microagents (after_calls demo_manager demo_calls)) =
     ["git"]
  /\ Dict.keys (repo_microagents (after_calls demo_manager demo_calls)) =
     ["repo"; "second"]
  /\ (disabled_microagents (after_calls demo_manager demo_calls) = ["docker"]
      /\ (forall n,
             In n (disabled_microagents (after_calls demo_manager demo_calls)) ->
             ~ In n (Dict.keys
                       (knowledge_microagents
                          (after_calls demo_manager demo_calls))) /\
             ~ In n (Dict.keys
                       (repo_microagents
                          (after_calls demo_manager demo_calls))))
      /\ (forall microagents,
             exec (load_microagents microagents)
               (after_calls demo_manager demo_calls) =
             exec (load_microagents
                     (filter
                        (takes_effect
                           (disabled_microagents
                              (after_calls demo_manager demo_calls)))
                        microagents))
               (after_calls demo_manager demo_calls))).
Proof.
  split; [reflexivity | split; [reflexivity | split; [reflexivity |]]].
  exact (@disabled_microagents_never_registered demo_files demo_template_error demo_loader
           (Some "/prompts") (Some "/microagents") (Some ["docker"])
           demo_manager demo_calls eq_refl).
Defined.

(** With [user_prompt.j2] missing the construction raises
    [FileNotFoundError] for that file; when moreover [system_prompt.j2],
    which is loaded first, does not compile, it raises the syntax error of
    that file. *)
Lemma init_fails_fast_on_missing_templates_example :
  __init__ incomplete_files demo_template_error demo_loader
    (Some "/prompts") None None =
    Raise (FileNotFoundError "Prompt file /prompts/user_prompt.j2 not found")
  /\ __init__ malformed_files demo_template_error demo_loader
       (Some "/prompts") None None =
     Raise (TemplateSyntaxError "Expected an expression")
  /\ (exists missing,
        In missing template_names /\
        incomplete_files (Py.path_join "/prompts" (missing +++ ".j2")) = None /\
        __init__ incomplete_files demo_template_error demo_loader
          (Some "/prompts") None None =
        Raise (FileNotFoundError
                 ("Prompt file " +++ Py.path_join "/prompts" (missing +++ ".j2")
                  +++ " not found")))
  /\ (exists e before culprit after,
        template_names = before ++ culprit :: after /\
        (forall n, In n before ->
           template_load_error malformed_files demo_template_error
             (template_path "/prompts" n) = None) /\
        template_load_error malformed_files demo_template_error
          (template_path "/prompts" culprit) = Some e /\
        __init__ malformed_files demo_template_error demo_loader
          (Some "/prompts") None None = Raise e).
Proof.
  split; [reflexivity | split; [reflexivity | split]].
  - apply (proj1 (proj2 (proj2
             (init_fails_fast_on_missing_templates incomplete_files
                demo_template_error demo_loader)))
             "/prompts" None None "user_prompt").
    + simpl. tauto.
    + reflexivity.
    + intros n [<- | [<- | [<- | [<- | []]]]];
        first [left; reflexivity | right; eexists; split; reflexivity].
  - apply (proj1 (proj2
             (init_fails_fast_on_missing_templates malformed_files
                demo_template_error demo_loader))
             "/prompts" None None "user_prompt").
    + simpl. tauto.
    + reflexivity.
Defined.

(** The system message of the concrete manager is the trimmed text of
    [system_prompt.j2], twice in a row. *)
Lemma rendered_messages_idempotent_example :
  get_system_message demo_render demo_manager =
    ("You are an agent.", demo_manager)
  /\ exists dir system_text user_text,
       Some "/prompts" = Some dir /\
       demo_files (Py.path_join dir "system_prompt.j2") = Some (Ok system_text) /\
       demo_files (Py.path_join dir "user_prompt.j2") = Some (Ok user_text) /\
       get_system_message demo_render demo_manager =
         (Py.strip (demo_render (mkTemplate system_text) []), demo_manager) /\
       get_example_user_message demo_render demo_manager =
         (Py.strip (demo_render (mkTemplate user_text) []), demo_manager) /\
       (x <- get_system_message demo_render ;;
        y <- get_system_message demo_render ;; mret (x, y))%method demo_manager =
         ((Py.strip (demo_render (mkTemplate system_text) []),
           Py.strip (demo_render (mkTemplate system_text) [])), demo_manager) /\
       (x <- get_example_user_message demo_render ;;
        y <- get_example_user_message demo_render ;; mret (x, y))%method
         demo_manager =
         ((Py.strip (demo_render (mkTemplate user_text) []),
           Py.strip (demo_render (mkTemplate user_text) [])), demo_manager).
Proof.
  split; [reflexivity |].
  exact (@rendered_messages_idempotent demo_render demo_files demo_template_error demo_loader
           (Some "/prompts") (Some "/microagents") (Some ["docker"])
           demo_manager eq_refl).
Defined.

(* ------------------------------------------------------------------ *)
(** ** Trimming *)

Lemma lstrip_chars_all_space (l : list ascii) :
  forallb Py.isspace l = true -> Py.lstrip_chars l = [].
Proof.
  induction l as [| c l IH]; simpl; [reflexivity |].
  intros H. apply andb_true_iff in H. destruct H as [Hc Hl].
  rewrite Hc. now apply IH.
Qed.

(** What is left after stripping on the left is a suffix that begins with
    a character that is not whitespace. *)
Lemma lstrip_chars_not_all_space (l : list ascii) :
  forallb Py.isspace l = false ->
  exists pre c l',
    l = pre ++ c :: l' /\ Py.isspace c = false /\ Py.lstrip_chars l = c :: l'.
Proof.
  induction l as [| c l IH]; simpl; [discriminate |].
  destruct (Py.isspace c) eqn:Hc; simpl; intros H.
  - destruct (IH H) as (pre & c' & l' & -> & Hc' & Hl).
    exists (c :: pre), c', l'. repeat split; assumption.
  - exists [], c, l. repeat split; assumption.
Qed.

Lemma forallb_rev (A : Type) (p : A -> bool) (l : list A) :
  forallb p (rev l) = forallb p l.
Proof.
  induction l as [| x l IH]; simpl; [reflexivity |].
  rewrite forallb_app, IH. simpl. rewrite andb_true_r. apply andb_comm.
Qed.

Lemma strip_chars (s : string) :
  list_ascii_of_string (Py.strip s) =
  Py.lstrip_chars (rev (Py.lstrip_chars (rev (list_ascii_of_string s)))).
Proof.
  unfold Py.strip, Py.lstrip, Py.rstrip.
  now rewrite !list_ascii_of_string_of_list_ascii.
Qed.

Lemma strip_all_space (s : string) :
  all_space s = true -> Py.strip s = "".
Proof.
  unfold all_space. intros H.
  rewrite <- (string_of_list_ascii_of_string (Py.strip s)), strip_chars.
  assert (Hr : forallb Py.isspace (rev (list_ascii_of_string s)) = true)
    by (rewrite forallb_rev; exact H).
  rewrite (@lstrip_chars_all_space _ Hr). reflexivity.
Qed.

Lemma last_cons (A : Type) (l : list A) :
  forall x d : A, last (x :: l) d = last l x.
Proof.
  induction l as [| y l IH]; intros x d; [reflexivity |].
  change (last (x :: y :: l) d) with (last (y :: l) d).
  now rewrite !IH.
Qed.

Lemma last_app_cons (A : Type) (l1 l2 : list A) (x : A) :
  forall d, last (l1 ++ x :: l2) d = last l2 x.
Proof.
  induction l1 as [| y l1 IH]; intros d; simpl app.
  - apply last_cons.
  - rewrite last_cons. apply IH.
Qed.

Lemma strip_not_all_space (s : string) :
  all_space s = false -> trimmed (Py.strip s) = true.
Proof.
  unfold all_space, trimmed. intros H. rewrite strip_chars.
  rewrite <- forallb_rev in H.
  destruct (@lstrip_chars_not_all_space _ H) as (pre & c & l' & _ & Hc & ->).
  assert (Hrev : forallb Py.isspace (rev (c :: l')) = false).
  { rewrite forallb_rev. simpl. now rewrite Hc. }
  destruct (@lstrip_chars_not_all_space _ Hrev) as (pre2 & c2 & l2 & E & Hc2 & ->).
  rewrite Hc2. simpl negb. rewrite andb_true_l.
  assert (Hlast : last l2 c2 = c).
  { rewrite <- (last_app_cons pre2 l2 c2 c), <- E. simpl.
    apply last_last. }
  rewrite Hlast, Hc. reflexivity.
Qed.

Lemma trimmed_truthy (s : string) : trimmed s = true -> Py.truthy s = true.
Proof. destruct s; [discriminate | reflexivity]. Qed.

(* ------------------------------------------------------------------ *)
(** ** The text block that is matched *)

Lemma first_text_no_text (l : list Content) :
  has_text l = false -> first_text l = "".
Proof.
  unfold has_text, Py.any.
  induction l as [| c l IH]; simpl; [reflexivity |].
  destruct c; simpl; [discriminate | exact IH].
Qed.

Lemma first_text_has_text (l1 l2 : list Content) :
  has_text l1 = true -> first_text (l1 ++ l2) = first_text l1.
Proof.
  unfold has_text, Py.any.
  induction l1 as [| c l1 IH]; simpl; [discriminate |].
  destruct c; simpl; [reflexivity | exact IH].
Qed.

Lemma has_text_rev (l : list Content) : has_text (rev l) = has_text l.
Proof.
  unfold has_text, Py.any.
  induction l as [| c l IH]; simpl; [reflexivity |].
  rewrite existsb_app, IH. simpl. rewrite orb_false_r. apply orb_comm.
Qed.

Lemma last_text_no_text (l : list Content) :
  has_text l = false -> last_text l = "".
Proof.
  intros H. unfold last_text, Py.reversed.
  apply first_text_no_text. now rewrite has_text_rev.
Qed.

(** Blocks put in front of a content that has a text block do not change
    the text that is matched. *)
Lemma last_text_prepend (front l : list Content) :
  has_text l = true -> last_text (front ++ l) = last_text l.
Proof.
  intros H. unfold last_text, Py.reversed.
  rewrite rev_app_distr. apply first_text_has_text. now rewrite has_text_rev.
Qed.

Lemma last_text_append_text (l : list Content) (text : string) :
  last_text (l ++ [TextContent text]) = text.
Proof.
  unfold last_text, Py.reversed. now rewrite rev_app_distr.
Qed.

Lemma has_text_truthy_list (l : list Content) :
  has_text l = true -> Py.truthy_list l = true.
Proof. destruct l; [discriminate | reflexivity]. Qed.

Lemma has_text_false_forall (l : list Content) :
  has_text l = false -> forall c, In c l -> is_TextContent c = false.
Proof.
  unfold has_text, Py.any. intros H c Hc.
  destruct (is_TextContent c) eqn:E; [| reflexivity].
  assert (existsb is_TextContent l = true)
    by (apply existsb_exists; now exists c).
  congruence.
Qed.

Lemma message_eta (m : Message) : mkMessage (role m) (content m) = m.
Proof. now destruct m. Qed.

Lemma reminder_text_truthy (state : State) :
  Py.truthy (reminder_text state) = true.
Proof. reflexivity. Qed.

(* ------------------------------------------------------------------ *)
(** ** Message composition: edge cases and interplay *)

Section Composition.

Variable render : Template -> Context -> string.

(** [enhance_message] in one equation: the block it inserts, if any. *)
Lemma enhance_message_block (self : PromptManager) (message : Message) :
  let text := last_text (content message) in
  let all_matches :=
    flat_map (matches_of text) (Dict.items (knowledge_microagents self)) in
  enhance_message render self message =
  mkMessage (role message)
    (block_if
       (Py.truthy_list (content message) && Py.truthy text
        && Py.truthy_list all_matches)
       (build_microagent_info render self all_matches)
     ++ content message).
Proof.
  intros text all_matches. unfold enhance_message.
  rewrite collect_triggered_flat_map. fold text. fold all_matches.
  destruct (Py.truthy_list (content message)); simpl;
    [| now rewrite message_eta].
  destruct (Py.truthy text); simpl; [| now rewrite message_eta].
  destruct (Py.truthy_list all_matches); simpl; [reflexivity |].
  now rewrite message_eta.
Qed.

(** X1. A message that holds blocks but no text block (images only) is
    left as it is by [enhance_message], whatever the registry holds. *)
Theorem enhance_message_without_text_block
    (self : PromptManager) (message : Message) :
  has_text (content message) = false ->
  enhance_message render self message = message.
Proof.
  intros H. rewrite enhance_message_block. cbv zeta.
  rewrite (last_text_no_text _ H). simpl. rewrite andb_false_r. simpl.
  apply message_eta.
Qed.

(** X2. [add_examples_to_initial_message] inserts the trimmed render of
    the user template at index 0 exactly when that render is not made of
    whitespace only; the text it inserts is never empty and neither begins
    nor ends with whitespace. *)
Theorem add_examples_inserts_trimmed_or_nothing
    (self : PromptManager) (message : Message) :
  let rendered := render (user_template self) [] in
  add_examples_to_initial_message render self message =
    mkMessage (role message)
      (block_if (negb (all_space rendered)) (Py.strip rendered)
       ++ content message)
  /\ (all_space rendered = true ->
      add_examples_to_initial_message render self message = message)
  /\ (all_space rendered = false -> trimmed (Py.strip rendered) = true).
Proof.
  intros rendered.
  assert (Hcase :
            add_examples_to_initial_message render self message =
            mkMessage (role message)
              (block_if (negb (all_space rendered)) (Py.strip rendered)
               ++ content message)).
  { unfold add_examples_to_initial_message, eval, get_example_user_message,
      reads. simpl. fold rendered.
    destruct (all_space rendered) eqn:E; simpl.
    - rewrite (strip_all_space _ E). simpl. symmetry. apply message_eta.
    - now rewrite (trimmed_truthy _ (strip_not_all_space _ E)). }
  split; [exact Hcase | split].
  - intros E. rewrite Hcase, E. simpl. apply message_eta.
  - apply strip_not_all_space.
Qed.

(** [add_info_to_initial_message] in one equation, for a registry of at
    most one repo microagent. *)
Lemma add_info_to_initial_message_block
    (self : PromptManager) (message : Message) :
  Dict.len (repo_microagents self) <= 1 ->
  let repo_instructions :=
    match Dict.values (repo_microagents self) with
    | [] => ""
    | a :: _ => MicroAgent.content a
    end in
  let rendered :=
    render (additional_info_template self)
      [("repository_instructions", VStr repo_instructions);
       ("repository_info", VRepositoryInfo (repository_info self));
       ("runtime_info", VRuntimeInfo (runtime_info self))] in
  add_info_to_initial_message render self message =
    Ok (mkMessage (role message)
          (block_if (negb (all_space rendered)) (Py.strip rendered)
           ++ content message)).
Proof.
  intros Hlen repo_instructions rendered.
  unfold add_info_to_initial_message, assert.
  assert (Hleb : (Dict.len (repo_microagents self) <=? 1)%nat = true)
    by now apply Nat.leb_le.
  rewrite Hleb. cbn [rbind].
  assert (Hjoin : join_repo_instructions (Dict.values (repo_microagents self))
                  = repo_instructions).
  { subst repo_instructions. unfold Dict.len, Dict.values in *.
    destruct (repo_microagents self) as [| [k a] [| kv d]]; simpl in *;
      [reflexivity | reflexivity | lia]. }
  rewrite Hjoin. fold rendered.
  destruct (all_space rendered) eqn:E; simpl.
  - rewrite (strip_all_space _ E). simpl. now rewrite message_eta.
  - now rewrite (trimmed_truthy _ (strip_not_all_space _ E)).
Qed.

(** X3. With at most one repo microagent, [add_info_to_initial_message]
    renders the additional-info template with the instructions of that
    microagent (the empty string when there is none), and inserts the
    trimmed render at index 0 exactly when it is not made of whitespace
    only; the inserted text is never empty or padded with whitespace. *)
Theorem add_info_inserts_trimmed_or_nothing
    (self : PromptManager) (message : Message) :
  Dict.len (repo_microagents self) <= 1 ->
  let repo_instructions :=
    match Dict.values (repo_microagents self) with
    | [] => ""
    | a :: _ => MicroAgent.content a
    end in
  let rendered :=
    render (additional_info_template self)
      [("repository_instructions", VStr repo_instructions);
       ("repository_info", VRepositoryInfo (repository_info self));
       ("runtime_info", VRuntimeInfo (runtime_info self))] in
  add_info_to_initial_message render self message =
    Ok (mkMessage (role message)
          (block_if (negb (all_space rendered)) (Py.strip rendered)
           ++ content message))
  /\ (all_space rendered = false -> trimmed (Py.strip rendered) = true).
Proof.
  intros Hlen repo_instructions rendered.
  split; [now apply add_info_to_initial_message_block |].
  apply strip_not_all_space.
Qed.

(** X4. Unlike the two other injections, [enhance_message] does not test
    the text it renders: when a microagent is triggered and the
    microagent-info template renders to whitespace only, an empty text
    block is inserted at index 0. *)
Theorem enhance_message_inserts_empty_block
    (self : PromptManager) (message : Message)
    (key : string) (a : KnowledgeMicroAgent) (trigger : string) :
  In (key, a) (Dict.items (knowledge_microagents self)) ->
  MicroAgent.match_trigger a (last_text (content message)) = Some trigger ->
  trigger <> "" ->
  last_text (content message) <> "" ->
  all_space
    (render (microagent_info_template self)
       [("triggered_agents",
         VTriggeredAgents
           (flat_map (matches_of (last_text (content message)))
              (Dict.items (knowledge_microagents self))))]) = true ->
  enhance_message render self message =
  mkMessage (role message) (TextContent "" :: content message).
Proof.
  intros Hin Hmatch Hne Htext Hblank.
  rewrite enhance_message_block. cbv zeta.
  assert (Hall := @matches_of_In _ _ _ _ _ Hin Hmatch Hne).
  apply truthy_nonempty in Htext. rewrite Htext.
  assert (Hlist : Py.truthy_list (content message) = true).
  { destruct (content message); [discriminate Htext | reflexivity]. }
  rewrite Hlist. unfold build_microagent_info.
  rewrite (strip_all_space _ Hblank).
  destruct (flat_map _ _); [destruct Hall | reflexivity].
Qed.

(** X5. On a message that has a text block, what [enhance_message] inserts
    does not depend on the blocks that were put in front before: after any
    one of the three calls (a second [enhance_message] included) it inserts
    the same block as on the message before that call, in front of what the
    call inserted. *)
Theorem enhance_message_after_prepend
    (self : PromptManager) (c : Call) (m m1 : Message) :
  has_text (content m) = true ->
  call render self c m = Ok m1 ->
  exists enhanced inserted,
    content (enhance_message render self m) = enhanced ++ content m /\
    content m1 = inserted ++ content m /\
    content (enhance_message render self m1) =
      enhanced ++ inserted ++ content m.
Proof.
  intros Htext Hcall.
  assert (Hm1 : exists inserted, content m1 = inserted ++ content m).
  { destruct (call_unchanged_or_inserts render self c m Hcall)
      as [-> | [text ->]]; [now exists [] | now exists [TextContent text]]. }
  destruct Hm1 as [inserted Hins].
  rewrite !enhance_message_block. cbv zeta. simpl content.
  rewrite Hins, (last_text_prepend inserted _ Htext).
  assert (Hl : Py.truthy_list (content m) = true)
    by now apply has_text_truthy_list.
  assert (Hl1 : Py.truthy_list (inserted ++ content m) = true).
  { destruct inserted; [exact Hl | reflexivity]. }
  rewrite Hl, Hl1.
  eexists. exists inserted. repeat split; reflexivity.
Qed.

(** X6. On a message without a text block the example text becomes the
    text that is matched: [enhance_message] after
    [add_examples_to_initial_message] matches the triggers against the
    inserted example, and puts its block in front of it. *)
Theorem enhance_message_matches_inserted_example
    (self : PromptManager) (message : Message) :
  has_text (content message) = false ->
  all_space (render (user_template self) []) = false ->
  let example := Py.strip (render (user_template self) []) in
  let matches :=
    flat_map (matches_of example) (Dict.items (knowledge_microagents self)) in
  enhance_message render self
    (add_examples_to_initial_message render self message) =
  mkMessage (role message)
    (block_if (Py.truthy_list matches)
       (build_microagent_info render self matches)
     ++ TextContent example :: content message).
Proof.
  intros Hnotext Hexample example matches.
  assert (Htruthy : Py.truthy example = true)
    by (apply trimmed_truthy; now apply strip_not_all_space).
  assert (Hadd : add_examples_to_initial_message render self message =
                 mkMessage (role message) (TextContent example :: content message)).
  { unfold add_examples_to_initial_message, eval, get_example_user_message,
      reads. simpl. fold example. now rewrite Htruthy. }
  rewrite Hadd, enhance_message_block. cbv zeta. simpl role. simpl content.
  assert (Hlast : last_text (TextContent example :: content message) = example)
    by (apply (@last_text_split [] (content message) example);
        now apply has_text_false_forall).
  rewrite Hlast, Htruthy. reflexivity.
Qed.

(** X8. After [add_turns_left_reminder] the reminder is the last text
    block of the message it chose: [enhance_message] on that message
    matches the triggers against the reminder text, not against the text
    of the user. *)
Theorem enhance_message_after_reminder
    (self : PromptManager) (pre post : list Message) (m : Message)
    (state : State) :
  is_user_text_message m = true ->
  (forall m', In m' post -> is_user_text_message m' = false) ->
  let reminded :=
    mkMessage (role m) (content m ++ [TextContent (reminder_text state)]) in
  let matches :=
    flat_map (matches_of (reminder_text state))
      (Dict.items (knowledge_microagents self)) in
  add_turns_left_reminder (pre ++ m :: post) state = pre ++ reminded :: post
  /\ last_text (content reminded) = reminder_text state
  /\ enhance_message render self reminded =
     mkMessage (role m)
       (block_if (Py.truthy_list matches)
          (build_microagent_info render self matches)
        ++ content reminded).
Proof.
  intros Hm Hpost reminded matches.
  split; [now apply add_turns_left_reminder_found |].
  assert (Hlast : last_text (content reminded) = reminder_text state)
    by apply last_text_append_text.
  split; [exact Hlast |].
  rewrite enhance_message_block. cbv zeta. rewrite Hlast.
  rewrite reminder_text_truthy. fold matches.
  assert (Hl : Py.truthy_list (content reminded) = true).
  { simpl. now destruct (content m). }
  rewrite Hl. reflexivity.
Qed.

End Composition.

(* ------------------------------------------------------------------ *)
(** ** Repeated reminders *)

Lemma with_reminder_is_user_text_message (state : State) (m : Message) :
  is_user_text_message m = true ->
  is_user_text_message (with_reminder state m) = true.
Proof.
  unfold is_user_text_message, with_reminder, Py.any. simpl.
  intros H. apply andb_true_iff in H. destruct H as [Hrole Htext].
  rewrite Hrole, existsb_app, Htext. reflexivity.
Qed.

(** X7. [add_turns_left_reminder] keeps the number of messages, and a
    second call chooses the same message as the first: the reminders pile
    up, in call order, at the end of the content of the latest user
    message with a text block. *)
Theorem add_turns_left_reminder_accumulates
    (pre post : list Message) (m : Message) (state1 state2 : State) :
  is_user_text_message m = true ->
  (forall m', In m' post -> is_user_text_message m' = false) ->
  add_turns_left_reminder
    (add_turns_left_reminder (pre ++ m :: post) state1) state2 =
    pre ++
    mkMessage (role m)
      (content m ++
       [TextContent (reminder_text state1); TextContent (reminder_text state2)])
    :: post
  /\ List.length
       (add_turns_left_reminder
          (add_turns_left_reminder (pre ++ m :: post) state1) state2) =
     List.length (pre ++ m :: post).
Proof.
  intros Hm Hpost.
  rewrite (add_turns_left_reminder_found pre post m state1 Hm Hpost).
  rewrite (add_turns_left_reminder_found pre post (with_reminder state1 m) state2
             (with_reminder_is_user_text_message state1 m Hm) Hpost).
  unfold with_reminder. simpl. rewrite <- app_assoc. simpl.
  split; [reflexivity |]. rewrite !length_app. reflexivity.
Qed.

(* ------------------------------------------------------------------ *)
(** ** Dictionaries: lookup after assignment *)

Lemma get_setitem_same (V : Type) (d : Dict.t V) (k : string) (v : V) :
  Dict.get (Dict.setitem d k v) k = Some v.
Proof.
  induction d as [| [k0 v0] d IH]; simpl.
  - now rewrite String.eqb_refl.
  - destruct (String.eqb k0 k) eqn:E; simpl; rewrite E; [reflexivity | exact IH].
Qed.

Lemma get_setitem_other (V : Type) (d : Dict.t V) (k k' : string) (v : V) :
  k' <> k -> Dict.get (Dict.setitem d k' v) k = Dict.get d k.
Proof.
  intros Hne. induction d as [| [k0 v0] d IH]; simpl.
  - apply String.eqb_neq in Hne. now rewrite Hne.
  - destruct (String.eqb k0 k') eqn:E; simpl.
    + apply String.eqb_eq in E. subst k0.
      apply String.eqb_neq in Hne. now rewrite Hne.
    + destruct (String.eqb k0 k); [reflexivity | exact IH].
Qed.

Lemma get_None_iff (V : Type) (d : Dict.t V) (k : string) :
  Dict.get d k = None <-> ~ In k (Dict.keys d).
Proof.
  induction d as [| [k0 v0] d IH]; simpl; [tauto |].
  destruct (String.eqb k0 k) eqn:E.
  - apply String.eqb_eq in E. split; [discriminate | tauto].
  - apply String.eqb_neq in E. rewrite IH. tauto.
Qed.

Lemma get_app (V : Type) (d1 d2 : Dict.t V) (k : string) :
  Dict.get (d1 ++ d2) k =
  match Dict.get d1 k with
  | Some v => Some v
  | None => Dict.get d2 k
  end.
Proof.
  induction d1 as [| [k0 v0] d1 IH]; simpl; [reflexivity |].
  destruct (String.eqb k0 k); [reflexivity | exact IH].
Qed.

Lemma setitem_keys_present (V : Type) (d : Dict.t V) (k : string) (v : V) :
  In k (Dict.keys d) -> Dict.keys (Dict.setitem d k v) = Dict.keys d.
Proof.
  induction d as [| [k0 v0] d IH]; simpl; [tauto |].
  destruct (String.eqb k0 k) eqn:E; simpl; [reflexivity |].
  intros [-> | H]; [now rewrite String.eqb_refl in E | now rewrite IH].
Qed.

Lemma setitem_absent (V : Type) (d : Dict.t V) (k : string) (v : V) :
  ~ In k (Dict.keys d) -> Dict.setitem d k v = d ++ [(k, v)].
Proof.
  induction d as [| [k0 v0] d IH]; simpl; [reflexivity |].
  intros H. destruct (String.eqb k0 k) eqn:E.
  - apply String.eqb_eq in E. tauto.
  - rewrite IH; tauto.
Qed.

Lemma setitem_NoDup (V : Type) (d : Dict.t V) (k : string) (v : V) :
  NoDup (Dict.keys d) -> NoDup (Dict.keys (Dict.setitem d k v)).
Proof.
  intros H. destruct (in_dec string_dec k (Dict.keys d)) as [Hin | Hout].
  - now rewrite setitem_keys_present.
  - rewrite (@setitem_absent _ d _ v Hout). unfold Dict.keys in *.
    rewrite map_app. simpl. apply NoDup_app; [assumption | | ].
    + constructor; [intros [] | constructor].
    + intros x Hx [<- | []]. contradiction.
Qed.

(** Two dictionaries with the same keys in the same order and the same
    value under every key are equal. *)
Lemma dict_ext (V : Type) (d1 : Dict.t V) :
  forall d2,
    NoDup (Dict.keys d1) ->
    Dict.keys d1 = Dict.keys d2 ->
    (forall k, Dict.get d1 k = Dict.get d2 k) ->
    d1 = d2.
Proof.
  induction d1 as [| [k1 v1] d1 IH]; intros [| [k2 v2] d2] Hnd Hkeys Hget;
    simpl in *; try discriminate; [reflexivity |].
  inversion Hkeys; subst. inversion Hnd; subst.
  assert (Hv := Hget k2). rewrite String.eqb_refl in Hv. inversion Hv; subst.
  f_equal. apply IH; [assumption | assumption |].
  intros k. specialize (Hget k).
  destruct (String.eqb k2 k) eqn:E; [| exact Hget].
  apply String.eqb_eq in E. subst k.
  assert (Hn1 : Dict.get d1 k2 = None) by now apply get_None_iff.
  assert (Hn2 : Dict.get d2 k2 = None)
    by (apply get_None_iff; unfold Dict.keys in *; congruence).
  congruence.
Qed.

Lemma set_all_NoDup (V : Type) (kvs : list (string * V)) :
  forall d, NoDup (Dict.keys d) -> NoDup (Dict.keys (set_all d kvs)).
Proof.
  unfold set_all.
  induction kvs as [| kv kvs IH]; intros d H; simpl; [exact H |].
  apply IH. now apply setitem_NoDup.
Qed.

(** After a series of assignments the value under a key is the one of the
    last assignment to it, or the one it had. *)
Lemma get_set_all (V : Type) (kvs : list (string * V)) (k : string) :
  forall d,
    Dict.get (set_all d kvs) k =
    match Dict.get (rev kvs) k with
    | Some v => Some v
    | None => Dict.get d k
    end.
Proof.
  unfold set_all.
  induction kvs as [| [k0 v0] kvs IH]; intros d; simpl; [reflexivity |].
  rewrite IH, get_app. simpl.
  destruct (Dict.get (rev kvs) k); [reflexivity |].
  destruct (String.eqb k0 k) eqn:E.
  - apply String.eqb_eq in E. subst. apply get_setitem_same.
  - apply String.eqb_neq in E. now apply get_setitem_other.
Qed.

Lemma setitem_keys_incl (V : Type) (d : Dict.t V) (k k' : string) (v : V) :
  In k (Dict.keys d) \/ k = k' -> In k (Dict.keys (Dict.setitem d k' v)).
Proof.
  intros H. destruct (in_dec string_dec k' (Dict.keys d)) as [Hin | Hout].
  - rewrite setitem_keys_present by assumption.
    destruct H as [H | ->]; assumption.
  - rewrite (@setitem_absent _ d _ v Hout). unfold Dict.keys in *.
    rewrite map_app. apply in_or_app. simpl.
    destruct H as [H | ->]; [now left | right; now left].
Qed.

Lemma set_all_keys_incl (V : Type) (kvs : list (string * V)) (k : string) :
  forall d,
    In k (Dict.keys d) \/ In k (map fst kvs) ->
    In k (Dict.keys (set_all d kvs)).
Proof.
  unfold set_all.
  induction kvs as [| [k0 v0] kvs IH]; intros d H; simpl.
  - destruct H as [H | []]. exact H.
  - apply IH. simpl in H.
    destruct H as [H | [<- | H]];
      [left; apply setitem_keys_incl; now left
      | left; apply setitem_keys_incl; now right
      | now right].
Qed.

Lemma set_all_keys_present (V : Type) (kvs : list (string * V)) :
  forall d,
    (forall k, In k (map fst kvs) -> In k (Dict.keys d)) ->
    Dict.keys (set_all d kvs) = Dict.keys d.
Proof.
  unfold set_all.
  induction kvs as [| [k0 v0] kvs IH]; intros d H; simpl; [reflexivity |].
  assert (Hk0 : In k0 (Dict.keys d)) by (apply H; now left).
  rewrite IH; [now apply setitem_keys_present |].
  intros k Hk. rewrite setitem_keys_present by assumption.
  apply H. now right.
Qed.

(** Making the same series of assignments again changes nothing. *)
Lemma set_all_idempotent (V : Type) (kvs : list (string * V)) (d : Dict.t V) :
  NoDup (Dict.keys d) ->
  set_all (set_all d kvs) kvs = set_all d kvs.
Proof.
  intros Hnd. apply dict_ext.
  - now do 2 apply set_all_NoDup.
  - apply set_all_keys_present. intros k Hk.
    apply set_all_keys_incl. now right.
  - intros k. rewrite (get_set_all kvs k (set_all d kvs)).
    destruct (Dict.get (rev kvs) k) eqn:E; [| reflexivity].
    now rewrite get_set_all, E.
Qed.

(* ------------------------------------------------------------------ *)
(** ** [load_microagents] as a series of assignments *)

Lemma set_registries_eta (self : PromptManager) :
  set_repo_microagents (repo_microagents self)
    (set_knowledge_microagents (knowledge_microagents self) self) = self.
Proof. now destruct self. Qed.

(** A batch acts on each registry as the series of the assignments of its
    enabled entries of that class, and on nothing else. *)
Lemma load_microagents_registries (ms : list MicroAgent.t) :
  forall self,
    exec (load_microagents ms) self =
    set_repo_microagents
      (set_all (repo_microagents self)
         (repo_entries (disabled_microagents self) ms))
      (set_knowledge_microagents
         (set_all (knowledge_microagents self)
            (knowledge_entries (disabled_microagents self) ms))
         self).
Proof.
  unfold load_microagents.
  induction ms as [| m ms IH]; intros self.
  - simpl. symmetry. apply set_registries_eta.
  - rewrite exec_for_each_cons, IH, load_microagent_disabled.
    unfold exec, load_microagent, set_all. simpl.
    destruct m as [a | a | a]; simpl;
      destruct (Py.contains _ (disabled_microagents self)); simpl;
      destruct self; reflexivity.
Qed.

Lemma knowledge_entries_keys (disabled : list string) (ms : list MicroAgent.t)
    (k : string) :
  In k (map fst (knowledge_entries disabled ms)) ->
  exists b,
    In (MicroAgent.Knowledge b) ms /\ MicroAgent.name b = k /\
    Py.contains k disabled = false.
Proof.
  unfold knowledge_entries. rewrite in_map_iff.
  intros ([k' b] & Hk & Hin). simpl in Hk. subst k'.
  apply in_flat_map in Hin. destruct Hin as (m & Hm & Hin).
  destruct m as [a | a | a]; try destruct Hin.
  destruct (Py.contains (MicroAgent.name a) disabled) eqn:E; [destruct Hin |].
  destruct Hin as [Heq | []]. inversion Heq; subst.
  exists b. repeat split; assumption.
Qed.

Lemma get_rev_absent (V : Type) (kvs : list (string * V)) (k : string) :
  ~ In k (map fst kvs) -> Dict.get (rev kvs) k = None.
Proof.
  intros H. apply get_None_iff. unfold Dict.keys.
  rewrite map_rev. intros Hin. apply H. now apply in_rev.
Qed.

(** X9. Lookup after registration: after [load_microagents] the knowledge
    registry holds, under the name of an enabled knowledge microagent of
    the batch, the last microagent of that name in the batch. *)
Theorem load_microagents_last_wins
    (self : PromptManager) (pre post : list MicroAgent.t)
    (a : KnowledgeMicroAgent) :
  Py.contains (MicroAgent.name a) (disabled_microagents self) = false ->
  (forall b, In (MicroAgent.Knowledge b) post ->
             MicroAgent.name b <> MicroAgent.name a) ->
  Dict.get
    (knowledge_microagents
       (exec (load_microagents (pre ++ MicroAgent.Knowledge a :: post)) self))
    (MicroAgent.name a) = Some a.
Proof.
  intros Henabled Hpost.
  rewrite load_microagents_registries. simpl knowledge_microagents.
  rewrite get_set_all.
  unfold knowledge_entries. rewrite flat_map_app. simpl flat_map.
  rewrite Henabled. simpl app.
  rewrite rev_app_distr. simpl rev. rewrite <- app_assoc, get_app.
  rewrite get_rev_absent.
  - simpl. now rewrite String.eqb_refl.
  - intros Hin. apply knowledge_entries_keys in Hin.
    destruct Hin as (b & Hb & Hname & _). now apply (Hpost b).
Qed.

(** X10. A name that no enabled knowledge microagent of the batch bears
    keeps its entry in the knowledge registry: a missing name stays
    missing, and the entry of a disabled name or of a name borne only by
    repo or other microagents is not touched. *)
Theorem load_microagents_other_names_untouched
    (self : PromptManager) (ms : list MicroAgent.t) (k : string) :
  (forall b, In (MicroAgent.Knowledge b) ms -> MicroAgent.name b = k ->
             Py.contains k (disabled_microagents self) = true) ->
  Dict.get (knowledge_microagents (exec (load_microagents ms) self)) k =
  Dict.get (knowledge_microagents self) k.
Proof.
  intros H. rewrite load_microagents_registries. simpl knowledge_microagents.
  rewrite get_set_all, get_rev_absent; [reflexivity |].
  intros Hin. apply knowledge_entries_keys in Hin.
  destruct Hin as (b & Hb & Hname & Hen).
  rewrite (H b Hb Hname) in Hen. discriminate.
Qed.

(** X11. Loading the same batch again changes nothing: the registries
    keep their keys, their order and their values. *)
Theorem load_microagents_idempotent
    (self : PromptManager) (ms : list MicroAgent.t) :
  well_formed self ->
  exec (load_microagents ms) (exec (load_microagents ms) self) =
  exec (load_microagents ms) self.
Proof.
  intros [Hk Hr].
  rewrite (load_microagents_registries ms (exec (load_microagents ms) self)).
  rewrite load_microagents_disabled.
  rewrite (load_microagents_registries ms self).
  simpl knowledge_microagents. simpl repo_microagents.
  rewrite !set_all_idempotent by assumption.
  now destruct self.
Qed.

Lemma load_microagents_well_formed (ms : list MicroAgent.t) (self : PromptManager) :
  well_formed self -> well_formed (exec (load_microagents ms) self).
Proof.
  intros [Hk Hr]. rewrite load_microagents_registries.
  split; simpl; now apply set_all_NoDup.
Qed.

(* ------------------------------------------------------------------ *)
(** ** Construction and the loaded collections *)

Lemma register_enabled_append (V : Type) (disabled : list string)
    (loaded : Dict.t V) :
  forall registry,
    NoDup (Dict.keys loaded) ->
    (forall k, In k (Dict.keys loaded) -> ~ In k (Dict.keys registry)) ->
    register_enabled disabled loaded registry =
    registry ++ enabled_items disabled loaded.
Proof.
  unfold register_enabled, enabled_items, Dict.items.
  induction loaded as [| [k0 v0] loaded IH]; intros registry Hnd Hfresh; simpl.
  - now rewrite app_nil_r.
  - simpl in Hnd. inversion Hnd as [| ? ? Hk0 Hnd']; subst.
    destruct (Py.contains k0 disabled); simpl.
    + apply IH; [assumption |]. intros k Hk. apply Hfresh. now right.
    + rewrite (@setitem_absent _ registry k0 v0)
        by (apply Hfresh; now left).
      rewrite IH; [now rewrite <- app_assoc | assumption |].
      intros k Hk. unfold Dict.keys. rewrite map_app, in_app_iff. simpl.
      intros [Hin | [<- | []]]; [| contradiction].
      apply (Hfresh k); [now right | exact Hin].
Qed.

Lemma downcast_all_upcast (V W : Type) (cast : V -> option W) (up : W -> V)
    (d : Dict.t V) :
  (forall v w, cast v = Some w -> up w = v) ->
  forall d',
    downcast_all cast d = Some d' ->
    map (fun kw => (fst kw, up (snd kw))) d' = d.
Proof.
  intros Hup. induction d as [| [k v] d IH]; intros d' H; simpl in H.
  - now inversion H.
  - destruct (cast v) as [w |] eqn:Hc; [| discriminate].
    destruct (downcast_all cast d) as [d'' |]; [| discriminate].
    inversion H; subst. simpl. rewrite (Hup v w Hc). f_equal. now apply IH.
Qed.

Lemma downcast_all_total (V W : Type) (cast : V -> option W) (d : Dict.t V) :
  forall d',
    downcast_all cast d = Some d' ->
    forall k v, In (k, v) d -> cast v <> None.
Proof.
  induction d as [| [k0 v0] d IH]; intros d' H k v Hin; [destruct Hin |].
  simpl in H.
  destruct (cast v0) as [w |] eqn:Hc; [| discriminate].
  destruct (downcast_all cast d) as [d'' |] eqn:Hd; [| discriminate].
  destruct Hin as [Heq | Hin].
  - inversion Heq; subst. congruence.
  - now apply (IH d'' eq_refl k v).
Qed.

Lemma enabled_items_map (V W : Type) (disabled : list string) (f : W -> V)
    (d : Dict.t W) :
  enabled_items disabled (map (fun kw => (fst kw, f (snd kw))) d) =
  map (fun kw => (fst kw, f (snd kw))) (enabled_items disabled d).
Proof.
  unfold enabled_items, Dict.items.
  induction d as [| [k w] d IH]; simpl; [reflexivity |].
  destruct (Py.contains k disabled); simpl; now rewrite IH.
Qed.

Lemma map_upcast_keys (V W : Type) (f : W -> V) (d : Dict.t W) :
  Dict.keys (map (fun kw => (fst kw, f (snd kw))) d) = Dict.keys d.
Proof.
  unfold Dict.keys. rewrite map_map. reflexivity.
Qed.

Lemma as_knowledge_upcast (m : MicroAgent.t) (a : KnowledgeMicroAgent) :
  MicroAgent.as_knowledge m = Some a -> MicroAgent.Knowledge a = m.
Proof. destruct m; simpl; intros H; now inversion H. Qed.

Lemma as_repo_upcast (m : MicroAgent.t) (a : RepoMicroAgent) :
  MicroAgent.as_repo m = Some a -> MicroAgent.Repo a = m.
Proof. destruct m; simpl; intros H; now inversion H. Qed.

Lemma mutate_templates (c : MutatingCall) (self : PromptManager) :
  system_template (exec (mutate c) self) = system_template self /\
  user_template (exec (mutate c) self) = user_template self /\
  additional_info_template (exec (mutate c) self) =
    additional_info_template self /\
  microagent_info_template (exec (mutate c) self) =
    microagent_info_template self /\
  prompt_dir (exec (mutate c) self) = prompt_dir self.
Proof.
  destruct c; simpl; [rewrite load_microagents_registries |..];
    repeat split; reflexivity.
Qed.

Lemma after_calls_templates (calls : list MutatingCall) :
  forall self,
    system_template (after_calls self calls) = system_template self /\
    user_template (after_calls self calls) = user_template self /\
    additional_info_template (after_calls self calls) =
      additional_info_template self /\
    microagent_info_template (after_calls self calls) =
      microagent_info_template self /\
    prompt_dir (after_calls self calls) = prompt_dir self.
Proof.
  unfold after_calls.
  induction calls as [| c calls IH]; intros self; simpl;
    [repeat split; reflexivity |].
  destruct (IH (exec (mutate c) self)) as (H1 & H2 & H3 & H4 & H5).
  destruct (mutate_templates c self) as (E1 & E2 & E3 & E4 & E5).
  repeat split; congruence.
Qed.

Section Registries.

Variable render : Template -> Context -> string.
Variable read_file : string -> option (result string).
Variable template_error : string -> option Exception.
Variable load_microagents_from_dir :
  string -> Dict.t MicroAgent.t * Dict.t MicroAgent.t * Dict.t MicroAgent.t.

(** X12. The size of the repo registry counts names: two enabled repo
    microagents of one name leave one entry, the second one, and
    [add_info_to_initial_message] goes through; two of different names
    leave two entries and it raises the assertion fault. *)
Theorem repo_microagents_counted_by_name
    (self : PromptManager) (a b : RepoMicroAgent) (message : Message) :
  repo_microagents self = [] ->
  Py.contains (MicroAgent.name a) (disabled_microagents self) = false ->
  Py.contains (MicroAgent.name b) (disabled_microagents self) = false ->
  let self' :=
    exec (load_microagents [MicroAgent.Repo a; MicroAgent.Repo b]) self in
  (MicroAgent.name a = MicroAgent.name b ->
   Dict.values (repo_microagents self') = [b] /\
   exists message',
     add_info_to_initial_message render self' message = Ok message')
  /\
  (MicroAgent.name a <> MicroAgent.name b ->
   Dict.keys (repo_microagents self') = [MicroAgent.name a; MicroAgent.name b] /\
   add_info_to_initial_message render self' message = Raise AssertionError).
Proof.
  intros Hempty Ha Hb self'.
  assert (Hrepo :
            repo_microagents self' =
            if String.eqb (MicroAgent.name a) (MicroAgent.name b)
            then [(MicroAgent.name a, b)]
            else [(MicroAgent.name a, a); (MicroAgent.name b, b)]).
  { subst self'. rewrite load_microagents_registries. simpl.
    rewrite Hempty, Ha, Hb. unfold set_all. simpl.
    now destruct (String.eqb (MicroAgent.name a) (MicroAgent.name b)). }
  unfold add_info_to_initial_message, assert. rewrite Hrepo.
  split; intros Hname.
  - apply String.eqb_eq in Hname. rewrite Hname. simpl.
    split; [reflexivity |].
    match goal with
    | |- context [if ?c then _ else _] => destruct c
    end; eexists; reflexivity.
  - apply String.eqb_neq in Hname. rewrite Hname. simpl.
    split; reflexivity.
Qed.

(** X13. A construction with a microagent directory registers exactly the
    loaded microagents whose key is not disabled, in the order in which
    the loader gave them: the enabled ones are all there, under their
    keys. *)
Theorem init_registers_enabled_in_order
    (prompt_dir : option string) (mdir : string)
    (disabled : option (list string)) (self : PromptManager)
    (loaded_repo loaded_knowledge other : Dict.t MicroAgent.t) :
  __init__ read_file template_error load_microagents_from_dir prompt_dir (Some mdir) disabled
    = Ok self ->
  Py.truthy mdir = true ->
  load_microagents_from_dir mdir = (loaded_repo, loaded_knowledge, other) ->
  NoDup (Dict.keys loaded_knowledge) ->
  NoDup (Dict.keys loaded_repo) ->
  map (fun kv => (fst kv, MicroAgent.Knowledge (snd kv)))
    (Dict.items (knowledge_microagents self)) =
    enabled_items (disabled_or_empty disabled) loaded_knowledge
  /\
  map (fun kv => (fst kv, MicroAgent.Repo (snd kv)))
    (Dict.items (repo_microagents self)) =
    enabled_items (disabled_or_empty disabled) loaded_repo.
Proof.
  unfold __init__. intros H Hdir Hload Hndk Hndr.
  destruct prompt_dir as [dir |]; [| discriminate].
  load_template_ok H read_file template_error dir "system_prompt" t1 R1 C1.
  load_template_ok H read_file template_error dir "user_prompt" t2 R2 C2.
  load_template_ok H read_file template_error dir "additional_info" t3 R3 C3.
  load_template_ok H read_file template_error dir "microagent_info" t4 R4 C4.
  rewrite Hdir, Hload in H. unfold assert_all_isinstance in H.
  destruct (downcast_all MicroAgent.as_knowledge loaded_knowledge)
    as [knowledge |] eqn:Hk; cbn [rbind] in H; [| discriminate].
  destruct (downcast_all MicroAgent.as_repo loaded_repo)
    as [repo |] eqn:Hr; cbn [rbind] in H; [| discriminate].
  inversion H; subst; clear H. simpl. unfold Dict.items, Dict.empty.
  pose proof (@downcast_all_upcast _ _ _ MicroAgent.Knowledge _
                as_knowledge_upcast _ Hk) as Ek.
  pose proof (@downcast_all_upcast _ _ _ MicroAgent.Repo _
                as_repo_upcast _ Hr) as Er.
  split.
  - rewrite register_enabled_append.
    + simpl. rewrite <- Ek. now rewrite enabled_items_map.
    + rewrite <- Ek, map_upcast_keys in Hndk. exact Hndk.
    + intros k _ [].
  - rewrite register_enabled_append.
    + simpl. rewrite <- Er. now rewrite enabled_items_map.
    + rewrite <- Er, map_upcast_keys in Hndr. exact Hndr.
    + intros k _ [].
Qed.

(** X14. When the four template files are there, can be read and
    compile, and the loader gives, in its knowledge collection, an entry
    that is not a knowledge microagent, or in its repo collection one that
    is not a repo microagent, the construction raises the assertion fault,
    also when the name of that entry is disabled. *)
Theorem init_asserts_loaded_kinds
    (dir mdir : string) (disabled : option (list string))
    (loaded_repo loaded_knowledge other : Dict.t MicroAgent.t) :
  (forall name, In name template_names ->
     template_load_error read_file template_error (template_path dir name)
     = None) ->
  Py.truthy mdir = true ->
  load_microagents_from_dir mdir = (loaded_repo, loaded_knowledge, other) ->
  (exists k m, In (k, m) loaded_knowledge /\ MicroAgent.as_knowledge m = None)
  \/ (exists k m, In (k, m) loaded_repo /\ MicroAgent.as_repo m = None) ->
  __init__ read_file template_error load_microagents_from_dir (Some dir) (Some mdir) disabled
    = Raise AssertionError.
Proof.
  intros Hfiles Hdir Hload Hbad.
  unfold __init__.
  destruct (load_template_cases read_file template_error dir "system_prompt")
    as [(e & L & _) | (t1 & _ & _ & _ & E1)];
    [rewrite Hfiles in L by (simpl; tauto); discriminate |].
  destruct (load_template_cases read_file template_error dir "user_prompt")
    as [(e & L & _) | (t2 & _ & _ & _ & E2)];
    [rewrite Hfiles in L by (simpl; tauto); discriminate |].
  destruct (load_template_cases read_file template_error dir "additional_info")
    as [(e & L & _) | (t3 & _ & _ & _ & E3)];
    [rewrite Hfiles in L by (simpl; tauto); discriminate |].
  destruct (load_template_cases read_file template_error dir "microagent_info")
    as [(e & L & _) | (t4 & _ & _ & _ & E4)];
    [rewrite Hfiles in L by (simpl; tauto); discriminate |].
  rewrite E1, E2, E3, E4. cbn [rbind]. rewrite Hdir, Hload.
  unfold assert_all_isinstance.
  destruct (downcast_all MicroAgent.as_knowledge loaded_knowledge)
    as [knowledge |] eqn:Hk; cbn [rbind]; [| reflexivity].
  destruct (downcast_all MicroAgent.as_repo loaded_repo)
    as [repo |] eqn:Hr; cbn [rbind]; [| reflexivity].
  destruct Hbad as [(k & m & Hin & Hnone) | (k & m & Hin & Hnone)].
  - now destruct (@downcast_all_total _ _ _ _ _ Hk k m Hin).
  - now destruct (@downcast_all_total _ _ _ _ _ Hr k m Hin).
Qed.

(** X15. The templates are loaded once: after any series of
    [load_microagents], [set_runtime_info] and [set_repository_info]
    calls the system message, the example message and what
    [add_examples_to_initial_message] does to a message are what they were
    before. *)
Theorem rendered_messages_constant
    (self : PromptManager) (calls : list MutatingCall) :
  eval (get_system_message render) (after_calls self calls) =
    eval (get_system_message render) self
  /\ eval (get_example_user_message render) (after_calls self calls) =
     eval (get_example_user_message render) self
  /\ (forall message,
         add_examples_to_initial_message render (after_calls self calls) message
         = add_examples_to_initial_message render self message).
Proof.
  destruct (after_calls_templates calls self) as (H1 & H2 & _).
  unfold add_examples_to_initial_message, eval, get_system_message,
    get_example_user_message, reads. simpl.
  rewrite H1, H2. repeat split; reflexivity.
Qed.

End Registries.

(* ------------------------------------------------------------------ *)
(** ** Repository and runtime information *)

Lemma mutate_repository_info (c : MutatingCall) (self : PromptManager) :
  is_set_repository_info c = false ->
  repository_info (exec (mutate c) self) = repository_info self.
Proof.
  destruct c; simpl; intros H; try discriminate;
    [rewrite load_microagents_registries |]; reflexivity.
Qed.

Lemma mutate_runtime_info (c : MutatingCall) (self : PromptManager) :
  is_set_runtime_info c = false ->
  runtime_info (exec (mutate c) self) = runtime_info self.
Proof.
  destruct c; simpl; intros H; try discriminate;
    [rewrite load_microagents_registries |]; reflexivity.
Qed.

Lemma after_calls_repository_info (calls : list MutatingCall) :
  forall self,
    (forall c, In c calls -> is_set_repository_info c = false) ->
    repository_info (after_calls self calls) = repository_info self.
Proof.
  unfold after_calls.
  induction calls as [| c calls IH]; intros self H; simpl; [reflexivity |].
  rewrite IH by (intros c' Hc'; apply H; now right).
  apply mutate_repository_info. apply H. now left.
Qed.

Lemma after_calls_runtime_info (calls : list MutatingCall) :
  forall self,
    (forall c, In c calls -> is_set_runtime_info c = false) ->
    runtime_info (after_calls self calls) = runtime_info self.
Proof.
  unfold after_calls.
  induction calls as [| c calls IH]; intros self H; simpl; [reflexivity |].
  rewrite IH by (intros c' Hc'; apply H; now right).
  apply mutate_runtime_info. apply H. now left.
Qed.

Lemma after_calls_app (self : PromptManager) (calls1 calls2 : list MutatingCall) :
  after_calls self (calls1 ++ calls2) = after_calls (after_calls self calls1) calls2.
Proof. unfold after_calls. apply fold_left_app. Qed.

(** X16. The last caller wins: after any series of calls, the repository
    information is the one of the last [set_repository_info] call and the
    runtime information the one of the last [set_runtime_info] call,
    whatever was loaded or set before and after. *)
Theorem setters_last_caller_wins :
  (forall self calls1 repo_name repo_directory calls2,
      (forall c, In c calls2 -> is_set_repository_info c = false) ->
      repository_info
        (after_calls self
           (calls1 ++ SetRepositoryInfo repo_name repo_directory :: calls2)) =
      Some (mkRepositoryInfo (Some repo_name) (Some repo_directory)))
  /\
  (forall self calls1 web_hosts calls2,
      (forall c, In c calls2 -> is_set_runtime_info c = false) ->
      runtime_info
        (after_calls self (calls1 ++ SetRuntimeInfo web_hosts :: calls2)) =
      mkRuntimeInfo web_hosts).
Proof.
  split.
  - intros self calls1 repo_name repo_directory calls2 H.
    rewrite after_calls_app.
    change (after_calls ?s (SetRepositoryInfo repo_name repo_directory :: calls2))
      with (after_calls
              (exec (set_repository_info repo_name repo_directory) s) calls2).
    now rewrite after_calls_repository_info.
  - intros self calls1 web_hosts calls2 H.
    rewrite after_calls_app.
    change (after_calls ?s (SetRuntimeInfo web_hosts :: calls2))
      with (after_calls (exec (set_runtime_info web_hosts) s) calls2).
    now rewrite after_calls_runtime_info.
Qed.

Section FreshManager.

Variable render : Template -> Context -> string.
Variable read_file : string -> option (result string).
Variable template_error : string -> option Exception.
Variable load_microagents_from_dir :
  string -> Dict.t MicroAgent.t * Dict.t MicroAgent.t * Dict.t MicroAgent.t.

(** X17. On a manager constructed without a microagent directory, before
    any setter call, [add_info_to_initial_message] does not raise: it
    renders the additional-info template read from [additional_info.j2]
    with empty instructions, no repository information and no host, and
    inserts the trimmed render unless it is whitespace only. *)
Theorem add_info_on_fresh_manager
    (prompt_dir : option string) (disabled : option (list string))
    (self : PromptManager) (message : Message) :
  __init__ read_file template_error load_microagents_from_dir prompt_dir None disabled
    = Ok self ->
  exists dir text,
    prompt_dir = Some dir /\
    read_file (Py.path_join dir "additional_info.j2") = Some (Ok text) /\
    let rendered :=
      render (mkTemplate text)
        [("repository_instructions", VStr "");
         ("repository_info", VRepositoryInfo None);
         ("runtime_info", VRuntimeInfo (mkRuntimeInfo Dict.empty))] in
    add_info_to_initial_message render self message =
    Ok (mkMessage (role message)
          (block_if (negb (all_space rendered)) (Py.strip rendered)
           ++ content message)).
Proof.
  unfold __init__. intros H.
  destruct prompt_dir as [dir |]; [| discriminate].
  load_template_ok H read_file template_error dir "system_prompt" t1 R1 C1.
  load_template_ok H read_file template_error dir "user_prompt" t2 R2 C2.
  load_template_ok H read_file template_error dir "additional_info" t3 R3 C3.
  load_template_ok H read_file template_error dir "microagent_info" t4 R4 C4.
  inversion H; subst; clear H.
  exists dir, t3. split; [reflexivity | split; [exact R3 |]].
  cbv zeta.
  match goal with
  | |- add_info_to_initial_message render ?pm message = _ =>
      apply (@add_info_to_initial_message_block render pm message);
        simpl; lia
  end.
Qed.

End FreshManager.

(* ------------------------------------------------------------------ *)
(** ** The further properties on concrete data *)

Lemma enhance_message_without_text_block_example :
  enhance_message demo_render two_knowledge_manager image_message =
  image_message.
Proof.
  apply (@enhance_message_without_text_block demo_render
           two_knowledge_manager image_message).
  reflexivity.
Defined.

Lemma add_info_inserts_trimmed_or_nothing_example :
  add_info_to_initial_message demo_render demo_manager (user_message "use git")
  = Ok (mkMessage "user"
          [TextContent "Info: Run the tests before a commit.";
           TextContent "use git"])
  /\ trimmed "Info: Run the tests before a commit." = true.
Proof.
  assert (Hlen : Dict.len (repo_microagents demo_manager) <= 1)
    by (simpl; lia).
  destruct (@add_info_inserts_trimmed_or_nothing demo_render demo_manager
              (user_message "use git") Hlen) as [Hcall Htrim].
  split; [exact Hcall | exact (Htrim eq_refl)].
Defined.

Lemma enhance_message_inserts_empty_block_example :
  enhance_message blank_render two_knowledge_manager (user_message "use git") =
  mkMessage "user" [TextContent ""; TextContent "use git"].
Proof.
  refine (@enhance_message_inserts_empty_block blank_render
            two_knowledge_manager (user_message "use git")
            "git" git_agent "git" _ _ _ _ _).
  - now left.
  - reflexivity.
  - discriminate.
  - discriminate.
  - reflexivity.
Defined.

Lemma enhance_message_after_prepend_example :
  exists enhanced inserted,
    content (enhance_message demo_render demo_manager (user_message "use git"))
      = enhanced ++ [TextContent "use git"] /\
    [TextContent "Example:"; TextContent "use git"] =
      inserted ++ [TextContent "use git"] /\
    content
      (enhance_message demo_render demo_manager
         (mkMessage "user" [TextContent "Example:"; TextContent "use git"]))
      = enhanced ++ inserted ++ [TextContent "use git"].
Proof.
  apply (@enhance_message_after_prepend demo_render demo_manager
           CallAddExamples (user_message "use git")
           (mkMessage "user" [TextContent "Example:"; TextContent "use git"])).
  - reflexivity.
  - reflexivity.
Defined.

Lemma enhance_message_matches_inserted_example_example :
  enhance_message demo_render git_example_manager
    (add_examples_to_initial_message demo_render git_example_manager
       image_message) =
  mkMessage "user"
    [TextContent "Triggered: git";
     TextContent "Example: use git";
     ImageContent ["https://example.com/git.png"]].
Proof.
  apply (@enhance_message_matches_inserted_example demo_render
           git_example_manager image_message).
  - reflexivity.
  - reflexivity.
Defined.

Lemma enhance_message_after_reminder_example :
  add_turns_left_reminder example_messages example_state =
    [user_message "a"; assistant_message "b";
     mkMessage "user" [TextContent "c"; TextContent seven_turns_reminder]]
  /\ last_text [TextContent "c"; TextContent seven_turns_reminder] =
     seven_turns_reminder
  /\ enhance_message demo_render reminder_manager
       (mkMessage "user" [TextContent "c"; TextContent seven_turns_reminder]) =
     mkMessage "user"
       [TextContent "Triggered: REMINDER";
        TextContent "c"; TextContent seven_turns_reminder].
Proof.
  refine (@enhance_message_after_reminder demo_render reminder_manager
            [user_message "a"; assistant_message "b"] []
            (user_message "c") example_state _ _).
  - reflexivity.
  - intros m' [].
Defined.

Lemma add_turns_left_reminder_accumulates_example :
  add_turns_left_reminder
    (add_turns_left_reminder example_messages example_state) (mkState 10 4) =
    [user_message "a"; assistant_message "b";
     mkMessage "user"
       [TextContent "c";
        TextContent (reminder_text example_state);
        TextContent (reminder_text (mkState 10 4))]]
  /\ List.length
       (add_turns_left_reminder
          (add_turns_left_reminder example_messages example_state)
          (mkState 10 4)) = 3.
Proof.
  refine (@add_turns_left_reminder_accumulates
            [user_message "a"; assistant_message "b"] []
            (user_message "c") example_state (mkState 10 4) _ _).
  - reflexivity.
  - intros m' [].
Defined.

Lemma load_microagents_last_wins_example :
  Dict.get
    (knowledge_microagents
       (exec (load_microagents
                [MicroAgent.Knowledge git_agent;
                 MicroAgent.Knowledge other_git_agent;
                 MicroAgent.Repo repo_agent])
          demo_manager))
    "git" = Some other_git_agent.
Proof.
  refine (@load_microagents_last_wins demo_manager
            [MicroAgent.Knowledge git_agent] [MicroAgent.Repo repo_agent]
            other_git_agent _ _).
  - reflexivity.
  - intros b [H | []]. discriminate H.
Defined.

Lemma load_microagents_other_names_untouched_example :
  Dict.get
    (knowledge_microagents (exec (load_microagents demo_batch) demo_manager))
    "docker" = None.
Proof.
  refine (@load_microagents_other_names_untouched demo_manager demo_batch
            "docker" _).
  intros b Hb Hname. reflexivity.
Defined.

Lemma load_microagents_idempotent_example :
  exec (load_microagents demo_batch)
    (exec (load_microagents demo_batch) demo_manager) =
  exec (load_microagents demo_batch) demo_manager.
Proof.
  apply (@load_microagents_idempotent demo_manager demo_batch).
  split; simpl; repeat constructor; simpl; tauto.
Defined.

Lemma repo_microagents_counted_by_name_example :
  (Dict.values
     (repo_microagents
        (exec (load_microagents
                 [MicroAgent.Repo repo_agent; MicroAgent.Repo other_repo_agent])
           two_knowledge_manager)) = [other_repo_agent]
   /\ exists message',
        add_info_to_initial_message demo_render
          (exec (load_microagents
                   [MicroAgent.Repo repo_agent; MicroAgent.Repo other_repo_agent])
             two_knowledge_manager)
          (user_message "use git") = Ok message')
  /\ add_info_to_initial_message demo_render
       (exec (load_microagents
                [MicroAgent.Repo repo_agent; MicroAgent.Repo second_repo_agent])
          two_knowledge_manager)
       (user_message "use git") = Raise AssertionError.
Proof.
  split.
  - apply (proj1 (@repo_microagents_counted_by_name demo_render
                    two_knowledge_manager repo_agent other_repo_agent
                    (user_message "use git") eq_refl eq_refl eq_refl)).
    reflexivity.
  - apply (proj2 (@repo_microagents_counted_by_name demo_render
                    two_knowledge_manager repo_agent second_repo_agent
                    (user_message "use git") eq_refl eq_refl eq_refl)).
    discriminate.
Defined.

Lemma init_registers_enabled_in_order_example :
  map (fun kv => (fst kv, MicroAgent.Knowledge (snd kv)))
    (Dict.items (knowledge_microagents demo_manager)) =
    [("git", MicroAgent.Knowledge git_agent)]
  /\
  map (fun kv => (fst kv, MicroAgent.Repo (snd kv)))
    (Dict.items (repo_microagents demo_manager)) =
    [("repo", MicroAgent.Repo repo_agent)].
Proof.
  refine (@init_registers_enabled_in_order demo_files demo_template_error demo_loader
            (Some "/prompts") "/microagents" (Some ["docker"]) demo_manager
            _ _ _ eq_refl eq_refl eq_refl _ _).
  - simpl. repeat constructor; simpl; intuition discriminate.
  - simpl. repeat constructor; simpl; tauto.
Defined.

Lemma init_asserts_loaded_kinds_example :
  __init__ demo_files demo_template_error malformed_loader
    (Some "/prompts") (Some "/microagents") (Some ["docker"])
  = Raise AssertionError.
Proof.
  refine (@init_asserts_loaded_kinds demo_files demo_template_error
            malformed_loader "/prompts" "/microagents" (Some ["docker"])
            _ _ _ _ eq_refl eq_refl _).
  - intros name [<- | [<- | [<- | [<- | []]]]]; reflexivity.
  - left. exists "docker", (MicroAgent.Repo repo_agent).
    split; [simpl; tauto | reflexivity].
Defined.

Lemma setters_last_caller_wins_example :
  repository_info (after_calls demo_manager demo_calls) =
    Some (mkRepositoryInfo (Some "owner/repo") (Some "/workspace/repo"))
  /\ runtime_info (after_calls demo_manager demo_calls) =
     mkRuntimeInfo [("localhost", 8080%Z)].
Proof.
  split.
  - apply (proj1 setters_last_caller_wins demo_manager []
             "owner/repo" "/workspace/repo"
             [LoadMicroagents demo_batch; SetRuntimeInfo [("localhost", 8080%Z)]]).
    intros c [<- | [<- | []]]; reflexivity.
  - apply (proj2 setters_last_caller_wins demo_manager
             [SetRepositoryInfo "owner/repo" "/workspace/repo";
              LoadMicroagents demo_batch]
             [("localhost", 8080%Z)] []).
    intros c [].
Defined.

Lemma add_info_on_fresh_manager_example :
  exists dir text,
    Some "/prompts" = Some dir /\
    demo_files (Py.path_join dir "additional_info.j2") = Some (Ok text) /\
    add_info_to_initial_message demo_render fresh_manager
      (user_message "use git") =
    Ok (mkMessage "user"
          (block_if
             (negb
                (all_space
                   (demo_render (mkTemplate text)
                      [("repository_instructions", VStr "");
                       ("repository_info", VRepositoryInfo None);
                       ("runtime_info",
                        VRuntimeInfo (mkRuntimeInfo Dict.empty))])))
             (Py.strip
                (demo_render (mkTemplate text)
                   [("repository_instructions", VStr "");
                    ("repository_info", VRepositoryInfo None);
                    ("runtime_info", VRuntimeInfo (mkRuntimeInfo Dict.empty))]))
           ++ [TextContent "use git"])).
Proof.
  exact (@add_info_on_fresh_manager demo_render demo_files demo_template_error demo_loader
           (Some "/prompts") (Some ["docker"]) fresh_manager
           (user_message "use git") eq_refl).
Defined.

(** A render made of one no-break space is whitespace only: nothing is
    inserted. *)
Lemma add_examples_inserts_trimmed_or_nothing_example :
  add_examples_to_initial_message nbsp_render demo_manager
    (user_message "use git") = user_message "use git"
  /\ add_examples_to_initial_message demo_render demo_manager
       (user_message "use git") =
     mkMessage "user" [TextContent "Example:"; TextContent "use git"].
Proof.
  split.
  - apply (proj1 (proj2 (@add_examples_inserts_trimmed_or_nothing nbsp_render
                           demo_manager (user_message "use git")))).
    reflexivity.
  - exact (proj1 (@add_examples_inserts_trimmed_or_nothing demo_render
                    demo_manager (user_message "use git"))).
Defined.
